(** * prompt_caching_demo.py: cost analysis, conversation window and start-up

    A shallow embedding of [src/prompt_caching_demo.py].

    - Python [int] is [Z]; Python [float] is IEEE 754 binary64, modelled in
      [Module B64] by its values (exact rationals that are representable,
      the two infinities and NaN) with every operation rounded to nearest,
      ties to even.  The rounding is defined on [Q], so that bounds on the
      rounding error are theorems; [Module Prim] maps it to Rocq's
      primitive binary64 floats, and the two agree on the script's figures
      and on ties, subnormals and overflow ([Module PrimFacts]).  The sign
      of a zero is not kept: the script divides, compares, adds and
      multiplies, and Python raises on either zero divisor.
    - Text is ASCII ([str.strip], [str.lower] and [len] on bytes).
    - [print], [input] and [client.messages.create] are events of a trace;
      exceptions are the [Raise] results of a small monad.
    - Text formatting (colours, [:,], [:.6f]) is not modelled: a printed
      line is a constructor of [line] that carries the numbers it shows. *)

From Stdlib Require Import ZArith QArith Qround Qabs Qpower Qreduction.
From Stdlib Require Import Lia Lqa List String Bool.
From Stdlib Require PrimFloat FloatOps SpecFloat Uint63.
Import ListNotations.

Set Implicit Arguments.

(* ================================================================== *)
(** ** Binary64 arithmetic *)

Module B64.

Local Open Scope Q_scope.

Definition pow2 (e : Z) : Q := 2 ^ e.

(** [mag q] is the binary exponent of [q]: [2^(mag q) <= |q| < 2^(mag q + 1)]
    for [q <> 0].  [Z.log2] of numerator and denominator is off by at
    most one, which the comparison settles. *)
Definition mag (q : Q) : Z :=
  let k := (Z.log2 (Z.abs (Qnum q)) - Z.log2 (Zpos (Qden q)))%Z in
  if Qle_bool (pow2 k) (Qabs q) then k else (k - 1)%Z.

(** Nearest integer, ties to the even one. *)
Definition rne (q : Q) : Z :=
  let f := Qfloor q in
  match Qcompare (q - inject_Z f) (1 # 2) with
  | Lt => f
  | Gt => (f + 1)%Z
  | Eq => if Z.even f then f else (f + 1)%Z
  end.

(** Exponent of the last place of a binary64 number of magnitude [e]:
    53 significant bits, subnormals from [2^-1074]. *)
Definition fexp (e : Z) : Z := Z.max (e - 52) (-1074).

(** Rounding to the binary64 grid, before the overflow test. *)
Definition round_fin (q : Q) : Q :=
  if Qeq_bool q 0 then 0
  else let e := fexp (mag q) in
       Qred (inject_Z (rne (q / pow2 e)) * pow2 e).

Inductive float : Type :=
| Fin (q : Q)
| PInf
| NInf
| NaN.

(** IEEE 754 roundTiesToEven: a rounded magnitude of [2^1024] or more
    overflows to an infinity. *)
Definition round64 (q : Q) : float :=
  let r := round_fin q in
  if Qle_bool (pow2 1024) (Qabs r)
  then (if Qle_bool 0 r then PInf else NInf)
  else Fin r.

(** A decimal literal [n/d] of the source, e.g. [0.80] is [lit 80 100]:
    Python reads a literal as the nearest binary64 number. *)
Definition lit (n : Z) (d : positive) : float := round64 (n # d).

(** An [int] operand of a float operation is converted first. *)
Definition of_int (n : Z) : float := round64 (inject_Z n).

Definition fsign (x : float) : comparison :=
  match x with
  | Fin q => Qcompare q 0
  | PInf => Gt
  | NInf => Lt
  | NaN => Eq
  end.

Definition is_nan (x : float) : bool :=
  match x with NaN => true | _ => false end.

Definition is_inf (x : float) : bool :=
  match x with PInf | NInf => true | _ => false end.

Definition inf_of_sign (s : comparison) : float :=
  match s with Gt => PInf | Lt => NInf | Eq => NaN end.

Definition sign_mul (s t : comparison) : comparison :=
  match s, t with
  | Eq, _ | _, Eq => Eq
  | Gt, Gt | Lt, Lt => Gt
  | _, _ => Lt
  end.

Definition fneg (x : float) : float :=
  match x with
  | Fin q => Fin (Qred (- q))
  | PInf => NInf
  | NInf => PInf
  | NaN => NaN
  end.

Definition fadd (x y : float) : float :=
  match x, y with
  | NaN, _ | _, NaN => NaN
  | Fin a, Fin b => round64 (a + b)
  | PInf, NInf | NInf, PInf => NaN
  | PInf, _ | _, PInf => PInf
  | NInf, _ | _, NInf => NInf
  end.

Definition fsub (x y : float) : float :=
  match x, y with
  | Fin a, Fin b => round64 (a - b)
  | _, _ => fadd x (fneg y)
  end.

Definition fmul (x y : float) : float :=
  match x, y with
  | NaN, _ | _, NaN => NaN
  | Fin a, Fin b => round64 (a * b)
  | _, _ => inf_of_sign (sign_mul (fsign x) (fsign y))
  end.

(** IEEE division for a divisor that is not zero (Python raises on a zero
    divisor before dividing, see [Py.float_div]). *)
Definition fdiv_nz (x y : float) : float :=
  match x, y with
  | NaN, _ | _, NaN => NaN
  | Fin a, Fin b => round64 (a / b)
  | Fin _, _ => Fin 0
  | _, Fin _ => inf_of_sign (sign_mul (fsign x) (fsign y))
  | _, _ => NaN
  end.

Definition is_zero (x : float) : bool :=
  match x with Fin q => Qeq_bool q 0 | _ => false end.

(** Comparisons; every comparison with NaN is false. *)
Definition feqb (x y : float) : bool :=
  match x, y with
  | Fin a, Fin b => Qeq_bool a b
  | PInf, PInf | NInf, NInf => true
  | _, _ => false
  end.

Definition fleb (x y : float) : bool :=
  match x, y with
  | NaN, _ | _, NaN => false
  | Fin a, Fin b => Qle_bool a b
  | NInf, _ | _, PInf => true
  | _, _ => false
  end.

Definition fltb (x y : float) : bool :=
  match x, y with
  | NaN, _ | _, NaN => false
  | _, _ => negb (fleb y x)
  end.

(** The unit roundoff and half the smallest subnormal. *)
Definition u : Q := 1 # 9007199254740992.
Definition eta : Q := pow2 (-1075).

End B64.

(* ================================================================== *)
(** ** Python values, exceptions and the effects of the script *)

Module Py.
Import B64.

(** The exceptions the script can meet; all are subclasses of
    [Exception], so [except Exception] catches each of them. *)
Inductive exn : Type :=
| ZeroDivisionError
| OverflowError
| IndexError
| EOFError
| FileNotFoundError
| APIError (msg : string).

Inductive result (A : Type) : Type :=
| Ok (a : A)
| Raise (e : exn).
Arguments Ok {A} a.
Arguments Raise {A} e.

(** [a / b] on two [int]s: the correctly rounded quotient;
    [OverflowError] when it is too large for a float. *)
Definition int_true_div (a b : Z) : result float :=
  if (b =? 0)%Z then Raise ZeroDivisionError
  else let x := round64 (inject_Z a / inject_Z b) in
       if is_inf x then Raise OverflowError else Ok x.

(** [x / y] on two floats: [ZeroDivisionError] on a zero divisor. *)
Definition float_div (x y : float) : result float :=
  if is_zero y then Raise ZeroDivisionError else Ok (fdiv_nz x y).

(** [response.usage].  The two cache counters are read behind [hasattr]:
    [None] is an absent attribute. *)
Record Usage : Type := {
  input_tokens : Z;
  cache_read_input_tokens : option Z;
  cache_creation_input_tokens : option Z;
  output_tokens : Z
}.

(** [response]: [content] holds the [text] of each content block. *)
Record Response : Type := {
  content : list string;
  usage : Usage
}.

Record SystemBlock : Type := {
  block_text : string;
  cache_control : option string
}.

Inductive Role : Type := user | assistant.

Record Message : Type := {
  role : Role;
  message_content : string
}.

(** The keyword arguments of [client.messages.create]. *)
Record Request : Type := {
  model : string;
  max_tokens : Z;
  system : list SystemBlock;
  messages : list Message
}.

(** What [print] shows.  Lines that carry numbers have a constructor of
    their own; the rest is [Text]. *)
Inductive line : Type :=
| Text (s : string)
| Rule (width : nat)
| AnalysisTitle (request_number : nat)
| CacheHit
| CachedTokensRead (n : Z)
| NewTokensProcessed (n : Z)
| TotalInputTokens (n : Z)
| WithoutCache (cost : float)
| WithCache (cost : float)
| Saved (savings savings_percent : float)
| CacheMiss
| CacheCreationTokens (n : Z)
| OneTimeWriteCost (cost : float)
| OutputTokens (n : Z)
| Loaded (videos : nat)
| MetadataSize (characters : nat)
| Running (prompts : nat)
| PromptLine (i : nat) (prompt : string)
| ResponseText (s : string)
| AI (s : string)
| ErrorLine (e : exn)
| RequestsMade (n : nat)
| TotalSaved (total : float).

Inductive event : Type :=
| Print (l : line)
| Input (prompt : string)
| Open (path : string)
| Create (r : Request).

(** [json.load] of the sample file: the script uses its [len] and its
    [json.dumps]. *)
Record Metadata : Type := {
  videos : nat;
  dumps : string
}.

(** What the script finds around it: the environment after
    [load_dotenv()], the data file, and the hosted API, whose answer to
    the [k]-th request is [messages_create k]. *)
Record Env : Type := {
  getenv : string -> option string;
  sample_videos_metadata : result Metadata;
  messages_create : nat -> Request -> result Response
}.

Record World : Type := {
  stdin : list string;
  calls : nat
}.

(** A computation with local variables [L]: it leaves a trace, the
    locals and the world as they are when it returns or raises. *)
Definition IO (L A : Type) : Type :=
  L -> World -> list event * L * World * result A.

Definition ret {L A} (a : A) : IO L A :=
  fun l w => ([], l, w, Ok a).

Definition bind {L A B} (m : IO L A) (k : A -> IO L B) : IO L B :=
  fun l w =>
    match m l w with
    | (t, l1, w1, Ok a) =>
        let '(t2, l2, w2, r) := k a l1 w1 in (t ++ t2, l2, w2, r)
    | (t, l1, w1, Raise e) => (t, l1, w1, Raise e)
    end.

Definition lift {L A} (r : result A) : IO L A :=
  fun l w => ([], l, w, r).

(** [try: m  except Exception as e: h e].  Assignments and output made
    before the exception stay. *)
Definition try_except {L A} (m : IO L A) (h : exn -> IO L A) : IO L A :=
  fun l w =>
    match m l w with
    | (t, l1, w1, Raise e) =>
        let '(t2, l2, w2, r) := h e l1 w1 in (t ++ t2, l2, w2, r)
    | o => o
    end.

Definition get {L} : IO L L := fun l w => ([], l, w, Ok l).
Definition put {L} (l' : L) : IO L unit := fun _ w => ([], l', w, Ok tt).

(** A call: the callee runs on locals of its own, which start as [init]. *)
Definition call {L L' A} (init : L') (m : IO L' A) : IO L A :=
  fun l w => let '(t, _, w1, r) := m init w in (t, l, w1, r).

Definition print {L} (x : line) : IO L unit :=
  fun l w => ([Print x], l, w, Ok tt).

Definition input {L} (prompt : string) : IO L string :=
  fun l w =>
    match stdin w with
    | [] => ([Input prompt], l, w, Raise EOFError)
    | s :: rest =>
        ([Input prompt], l, {| stdin := rest; calls := calls w |}, Ok s)
    end.

Definition create {L} (env : Env) (r : Request) : IO L Response :=
  fun l w =>
    ([Create r], l, {| stdin := stdin w; calls := S (calls w) |},
     messages_create env (calls w) r).

Declare Scope io_scope.
Delimit Scope io_scope with io.
Notation "x <- m ;; k" := (bind m (fun x => k))
  (at level 100, m at next level, right associativity) : io_scope.
Notation "m ;; k" := (bind m (fun _ => k))
  (at level 100, right associativity) : io_scope.
Local Open Scope io_scope.

Definition trace_of {L A} (o : list event * L * World * result A) : list event :=
  fst (fst (fst o)).
Definition locals_of {L A} (o : list event * L * World * result A) : L :=
  snd (fst (fst o)).
Definition world_of {L A} (o : list event * L * World * result A) : World :=
  snd (fst o).
Definition result_of {L A} (o : list event * L * World * result A) : result A :=
  snd o.

(** The lines a trace prints and the requests it sends. *)
Fixpoint printed (t : list event) : list line :=
  match t with
  | [] => []
  | Print x :: t' => x :: printed t'
  | _ :: t' => printed t'
  end.

Fixpoint requests (t : list event) : list Request :=
  match t with
  | [] => []
  | Create r :: t' => r :: requests t'
  | _ :: t' => requests t'
  end.

(* ---------------------------------------------------------------- *)
(** *** Strings (ASCII text) *)

Local Open Scope char_scope.

(** [str.isspace] on ASCII. *)
Definition isspace (c : Ascii.ascii) : bool :=
  let n := Ascii.nat_of_ascii c in
  ((9 <=? n) && (n <=? 13) || (28 <=? n) && (n <=? 32))%nat.

Fixpoint lstrip (s : string) : string :=
  match s with
  | EmptyString => EmptyString
  | String c s' => if isspace c then lstrip s' else s
  end.

Fixpoint rstrip (s : string) : string :=
  match s with
  | EmptyString => EmptyString
  | String c s' =>
      match rstrip s' with
      | EmptyString => if isspace c then EmptyString else String c EmptyString
      | r => String c r
      end
  end.

Definition strip (s : string) : string := rstrip (lstrip s).

Definition lower_char (c : Ascii.ascii) : Ascii.ascii :=
  let n := Ascii.nat_of_ascii c in
  if ((65 <=? n) && (n <=? 90))%nat then Ascii.ascii_of_nat (n + 32) else c.

Fixpoint lower (s : string) : string :=
  match s with
  | EmptyString => EmptyString
  | String c s' => String (lower_char c) (lower s')
  end.

Local Open Scope string_scope.

Definition is_empty (s : string) : bool :=
  match s with EmptyString => true | _ => false end.

Fixpoint mem (s : string) (l : list string) : bool :=
  match l with
  | [] => false
  | x :: l' => String.eqb s x || mem s l'
  end.

(** [l[-n:]] for [n > 0]. *)
Definition last_n {A} (n : nat) (l : list A) : list A :=
  skipn (List.length l - n) l.

(** [enumerate(l, start)]. *)
Fixpoint enumerate {A} (start : nat) (l : list A) : list (nat * A) :=
  match l with
  | [] => []
  | x :: l' => (start, x) :: enumerate (S start) l'
  end.

Fixpoint for_each {L A} (l : list A) (body : A -> IO L unit) : IO L unit :=
  match l with
  | [] => ret tt
  | x :: l' => body x ;; for_each l' body
  end.

(** [l[0]]. *)
Definition item0 {A} (l : list A) : result A :=
  match l with
  | [] => Raise IndexError
  | x :: _ => Ok x
  end.

(** [hasattr(usage, a) and usage.a > 0], with the value when it holds. *)
Definition attr_gt0 (a : option Z) : option Z :=
  match a with
  | Some n => if (0 <? n)%Z then Some n else None
  | None => None
  end.

End Py.

(* ================================================================== *)
(** ** The script *)

Module Demo.
Import B64 Py.
Local Open Scope io_scope.
Local Open Scope string_scope.

Definition and_then {A B} (r : result A) (k : A -> result B) : result B :=
  match r with
  | Ok a => k a
  | Raise e => Raise e
  end.

Notation "'let*' x := r 'in' k" := (and_then r (fun x => k))
  (at level 10, x pattern, r at level 100, k at level 200).

Definition nl : string := String (Ascii.ascii_of_nat 10) "".

(** [calculate_token_cost], lines 43-45. *)
Definition calculate_token_cost (tokens : Z) (rate_per_million : float)
  : result float :=
  let* x := int_true_div tokens 1000000 in
  Ok (fmul x rate_per_million).

(** The rates of lines 63-64 and 90-91. *)
Definition base_rate : float := lit 80 100.        (* 0.80 *)
Definition cache_read_rate : float := lit 8 100.   (* 0.08 *)
Definition cache_write_rate : float := lit 100 100. (* 1.00 *)

(** The binary64 numbers that [0.80] and [0.08] denote. *)
Definition base_rate_q : Q := Eval vm_compute in round_fin (80 # 100).
Definition cache_read_rate_q : Q := Eval vm_compute in round_fin (8 # 100).

(** Lines 66-68. *)
Definition cost_without_cache (input_tokens cache_read : Z) (base_rate : float)
  : result float :=
  calculate_token_cost (input_tokens + cache_read) base_rate.

(** Lines 69-72. *)
Definition cost_with_cache (input_tokens cache_read : Z)
  (base_rate cache_read_rate : float) : result float :=
  let* a := calculate_token_cost input_tokens base_rate in
  let* b := calculate_token_cost cache_read cache_read_rate in
  Ok (fadd a b).

Record HitCosts : Type := {
  hc_without : float;
  hc_with : float;
  hc_savings : float;
  hc_percent : float
}.

(** Lines 62-75, the figures of the cache-hit branch. *)
Definition hit_costs (input_tokens cache_read : Z) : result HitCosts :=
  let* cost_without_cache :=
    cost_without_cache input_tokens cache_read base_rate in
  let* cost_with_cache :=
    cost_with_cache input_tokens cache_read base_rate cache_read_rate in
  let savings := fsub cost_without_cache cost_with_cache in
  let* q := float_div savings cost_without_cache in
  let savings_percent := fmul q (of_int 100) in
  Ok {| hc_without := cost_without_cache; hc_with := cost_with_cache;
        hc_savings := savings; hc_percent := savings_percent |}.

(** Line 93. *)
Definition creation_cost (cache_creation : Z) : result float :=
  calculate_token_cost cache_creation cache_write_rate.

(** Lines 162-168, the amount added to [total_saved]. *)
Definition tracked_savings (cache_read : Z) : result float :=
  let* base_cost := calculate_token_cost cache_read (lit 80 100) in
  let* cache_cost := calculate_token_cost cache_read (lit 8 100) in
  Ok (fsub base_cost cache_cost).

Definition print_header {L} : IO L unit :=
  print (Rule 60) ;;
  print (Text "PROMPT CACHING DEMONSTRATION") ;;
  print (Text "Reduce your AI API costs by 90%!") ;;
  print (Rule 60).

(** [print_cache_analysis], lines 47-99. *)
Definition print_cache_analysis (response : Response) (request_number : nat)
  : IO unit unit :=
  let usage := usage response in
  print (Rule 50) ;;
  print (AnalysisTitle request_number) ;;
  print (Rule 50) ;;
  match attr_gt0 (cache_read_input_tokens usage) with
  | Some cache_read =>
      print CacheHit ;;
      print (CachedTokensRead cache_read) ;;
      print (NewTokensProcessed (input_tokens usage)) ;;
      print (TotalInputTokens (input_tokens usage + cache_read)) ;;
      costs <- lift (hit_costs (input_tokens usage) cache_read) ;;
      print (Text "COST BREAKDOWN:") ;;
      print (WithoutCache (hc_without costs)) ;;
      print (WithCache (hc_with costs)) ;;
      print (Saved (hc_savings costs) (hc_percent costs))
  | None =>
      print CacheMiss ;;
      print (NewTokensProcessed (input_tokens usage)) ;;
      match attr_gt0 (cache_creation_input_tokens usage) with
      | Some cache_creation =>
          print (CacheCreationTokens cache_creation) ;;
          cost <- lift (creation_cost cache_creation) ;;
          print (Text "CACHE CREATION COST:") ;;
          print (OneTimeWriteCost cost) ;;
          print (Text "(Future requests will save 90%)")
      | None => ret tt
      end
  end ;;
  print (OutputTokens (output_tokens usage)) ;;
  print (Rule 50).

Section Script.

Variable env : Env.

(** Module level, lines 18-19. *)
Definition ANTHROPIC_API_KEY : option string := getenv env "ANTHROPIC_API_KEY".

Definition MODEL : string :=
  match getenv env "ANTHROPIC_MODEL" with
  | Some m => m
  | None => "claude-3-5-haiku-20241022"
  end.

(** [load_sample_data], lines 38-41. *)
Definition load_sample_data {L} : IO L Metadata :=
  fun l w =>
    ([Open "data/sample_videos_metadata.json"], l, w, sample_videos_metadata env).

Definition system_blocks (instructions metadata_json : string)
  : list SystemBlock :=
  [ {| block_text := instructions; cache_control := None |};
    {| block_text := "# Video Metadata Repository" ++ nl ++ metadata_json;
       cache_control := Some "ephemeral" |} ].

Definition test_prompts : list string :=
  [ "What are the main topics covered in these videos?";
    "Which video has the most views?";
    "List all videos about Python programming.";
    "What's the average duration of these videos?" ].

(** The body of the loop of [demonstrate_caching], lines 130-175; the
    local variable is [total_saved]. *)
Definition demonstrate_prompt (metadata_json : string) (ip : nat * string)
  : IO float unit :=
  let '(i, prompt) := ip in
  print (PromptLine i prompt) ;;
  try_except
    (response <- create env
       {| model := MODEL;
          max_tokens := 500;
          system := system_blocks
            ("You are an AI assistant analyzing YouTube video metadata. "
             ++ "Provide concise, helpful responses based on the video data provided.")
            metadata_json;
          messages := [ {| role := user; message_content := prompt |} ] |} ;;
     print (Text "Response:") ;;
     text <- lift (item0 (content response)) ;;
     print (ResponseText
              (if (200 <? String.length text)%nat
               then substring 0 200 text ++ "..." else text)) ;;
     call tt (print_cache_analysis response i) ;;
     match attr_gt0 (cache_read_input_tokens (usage response)) with
     | Some cache_read =>
         saved <- lift (tracked_savings cache_read) ;;
         total_saved <- get ;;
         put (fadd total_saved saved)
     | None => ret tt
     end ;;
     if (i <? List.length test_prompts)%nat
     then print (Text "Continuing to next request...")
     else ret tt)
    (fun e => print (ErrorLine e)).

(** [demonstrate_caching], lines 101-188. *)
Definition demonstrate_caching : IO float unit :=
  call tt print_header ;;
  print (Text "Initializing Anthropic client...") ;;
  print (Text "Loading sample video metadata...") ;;
  video_metadata <- load_sample_data ;;
  let metadata_json := dumps video_metadata in
  print (Loaded (videos video_metadata)) ;;
  print (MetadataSize (String.length metadata_json)) ;;
  print (Running (List.length test_prompts)) ;;
  put (of_int 0) ;;
  for_each (enumerate 1 test_prompts) (demonstrate_prompt metadata_json) ;;
  print (Rule 60) ;;
  print (Text "DEMONSTRATION COMPLETE!") ;;
  print (Rule 60) ;;
  print (Text "Summary:") ;;
  print (RequestsMade (List.length test_prompts)) ;;
  total_saved <- get ;;
  print (TotalSaved total_saved) ;;
  print (Text "Cache window: 5 minutes (ephemeral)") ;;
  print (Text "Key Takeaway:") ;;
  print (Text "After the first request, all subsequent requests within 5 minutes") ;;
  print (Text "save 90% on the cached content tokens!") ;;
  print (Text "Imagine the savings on production workloads!").

(** The local variables of [interactive_mode], lines 200-201. *)
Record Chat : Type := {
  conversation_history : list Message;
  request_count : nat
}.

(** One pass of the [while True] loop, lines 204-249; [false] is [break]. *)
Definition interactive_turn (metadata_json : string) : IO Chat bool :=
  raw <- input "You: " ;;
  let user_input := strip raw in
  if mem (lower user_input) ["exit"; "quit"; "bye"] then
    print (Text "Thanks for trying the demo!") ;;
    ret false
  else if is_empty user_input then
    ret true
  else
    l <- get ;;
    put {| conversation_history := conversation_history l;
           request_count := S (request_count l) |} ;;
    try_except
      (l <- get ;;
       response <- create env
         {| model := MODEL;
            max_tokens := 1024;
            system := system_blocks
              ("You are an AI assistant analyzing YouTube video metadata. "
               ++ "Be conversational and helpful.")
              metadata_json;
            messages := (conversation_history l
                         ++ [ {| role := user; message_content := user_input |} ])%list |} ;;
       ai_response <- lift (item0 (content response)) ;;
       print (AI ai_response) ;;
       let appended :=
         (conversation_history l
          ++ [ {| role := user; message_content := user_input |};
               {| role := assistant; message_content := ai_response |} ])%list in
       put {| conversation_history :=
                if (10 <? List.length appended)%nat
                then last_n 10 appended else appended;
              request_count := request_count l |} ;;
       call tt (print_cache_analysis response (request_count l)))
      (fun e => print (ErrorLine e)) ;;
    ret true.

(** The loop, run for at most [fuel] passes. *)
Fixpoint interactive_loop (metadata_json : string) (fuel : nat)
  : IO Chat unit :=
  match fuel with
  | O => ret tt
  | S fuel' =>
      again <- interactive_turn metadata_json ;;
      if again then interactive_loop metadata_json fuel' else ret tt
  end.

(** [interactive_mode], lines 190-249.  Each pass reads a line, so one
    pass more than there are lines left on [stdin] ends the loop. *)
Definition interactive_mode : IO Chat unit :=
  print (Text "INTERACTIVE MODE") ;;
  print (Text "Chat with the AI about the video data. Type 'exit' to quit.") ;;
  print (Text "Watch how caching reduces costs with each message!") ;;
  video_metadata <- load_sample_data ;;
  let metadata_json := dumps video_metadata in
  put {| conversation_history := []; request_count := 0 |} ;;
  fun l w => interactive_loop metadata_json (S (List.length (stdin w))) l w.

(** [not ANTHROPIC_API_KEY]: unset, or set to the empty string. *)
Definition key_missing : bool :=
  match ANTHROPIC_API_KEY with
  | None => true
  | Some k => is_empty k
  end.

(** [main], lines 251-276. *)
Definition main : IO unit unit :=
  call tt print_header ;;
  if key_missing then
    print (Text "ERROR: ANTHROPIC_API_KEY not found in environment variables!") ;;
    print (Text "Please create a .env file with your API key:") ;;
    print (Text "  ANTHROPIC_API_KEY=your_api_key_here") ;;
    print (Text "  ANTHROPIC_MODEL=claude-3-5-haiku-20241022")
  else
    print (Text "Choose a demo mode:") ;;
    print (Text "1. Automated demonstration (recommended for first time)") ;;
    print (Text "2. Interactive chat mode") ;;
    print (Text "3. Exit") ;;
    raw <- input "Enter your choice (1-3): " ;;
    let choice := strip raw in
    if String.eqb choice "1" then
      call (of_int 0) demonstrate_caching
    else if String.eqb choice "2" then
      call {| conversation_history := []; request_count := 0 |} interactive_mode
    else if String.eqb choice "3" then
      print (Text "Goodbye!")
    else
      print (Text "Invalid choice. Please run the script again.").

End Script.

End Demo.

(* ================================================================== *)
(** ** The operations of the specification *)

Module Spec.
Import B64 Py Demo.

(** The usage record of the data model: an absent counter counts as 0. *)
Definition inputTokens (u : Usage) : Z := input_tokens u.

Definition cacheReadTokens (u : Usage) : Z :=
  match cache_read_input_tokens u with
  | Some n => n
  | None => 0
  end.

Definition cacheCreationTokens (u : Usage) : Z :=
  match cache_creation_input_tokens u with
  | Some n => n
  | None => 0
  end.

Record PricingTable : Type := {
  baseRatePerMillion : float;
  cacheReadRatePerMillion : float;
  cacheWriteRatePerMillion : float
}.

(** The rates the script uses. *)
Definition haiku : PricingTable :=
  {| baseRatePerMillion := lit 80 100;
     cacheReadRatePerMillion := lit 8 100;
     cacheWriteRatePerMillion := lit 100 100 |}.

(** [(inputTokens + cacheReadTokens) / 1,000,000 * baseRatePerMillion]. *)
Definition costWithoutCache (u : Usage) (p : PricingTable) : result float :=
  let* q := int_true_div (inputTokens u + cacheReadTokens u) 1000000 in
  Ok (fmul q (baseRatePerMillion p)).

(** The three cases of [costWithCache]; [1e6] is read as the million of
    [costWithoutCache]. *)
Definition costWithCache (u : Usage) (p : PricingTable) : result float :=
  if (0 <? cacheReadTokens u)%Z then
    let* qi := int_true_div (inputTokens u) 1000000 in
    let* qc := int_true_div (cacheReadTokens u) 1000000 in
    Ok (fadd (fmul qi (baseRatePerMillion p))
             (fmul qc (cacheReadRatePerMillion p)))
  else if (0 <? cacheCreationTokens u)%Z then
    let* q := int_true_div (cacheCreationTokens u) 1000000 in
    Ok (fmul q (cacheWriteRatePerMillion p))
  else
    let* q := int_true_div (inputTokens u) 1000000 in
    Ok (fmul q (baseRatePerMillion p)).

(** [x] is a finite float within [radius] of the exact number [center]. *)
Definition fin_within (x : float) (center radius : Q) : Prop :=
  match x with
  | Fin q => (Qabs (q - center) <= radius)%Q
  | _ => False
  end.

(** [tokens / 1_000_000] as an exact rational. *)
Definition millions (tokens : Z) : Q := (inject_Z tokens / inject_Z 1000000)%Q.

(** [cacheReadTokens * (0.80 - 0.08) / 1e6] in exact arithmetic. *)
Definition exact_savings (cache_read : Z) : Q :=
  (millions cache_read * ((80 # 100) - (8 # 100)))%Q.

End Spec.

(* ================================================================== *)
(** ** Primitive floats, to compare the rounding with *)

Module Prim.
Import B64.

(** The primitive binary64 float of a value of the model. *)
Definition to_prim (x : float) : PrimFloat.float :=
  match x with
  | Fin q =>
      if Qeq_bool q 0 then PrimFloat.zero
      else let e := fexp (mag q) in
           let m := Qfloor (Qabs q / pow2 e) in
           FloatOps.SF2Prim
             (SpecFloat.S754_finite (negb (Qle_bool 0 q)) (Z.to_pos m) e)
  | PInf => PrimFloat.infinity
  | NInf => PrimFloat.neg_infinity
  | NaN => PrimFloat.nan
  end.

Definition of_Z (n : Z) : PrimFloat.float :=
  PrimFloat.of_uint63 (Uint63.of_Z n).

Definition one : PrimFloat.float := of_Z 1.

(** The smallest subnormal and the largest power of two. *)
Definition tiny : PrimFloat.float := FloatOps.Z.ldexp one (-1074).
Definition big : PrimFloat.float := FloatOps.Z.ldexp one 1023.

(** [(tokens / 1_000_000) * (n / d)] on the primitive floats. *)
Definition prim_cost (tokens n d : Z) : PrimFloat.float :=
  PrimFloat.mul (PrimFloat.div (of_Z tokens) (of_Z 1000000))
                (PrimFloat.div (of_Z n) (of_Z d)).

End Prim.

(* ================================================================== *)
(** ** Printed layouts and sample inputs *)

Module Layout.
Import B64 Py Demo.
Local Open Scope string_scope.

(** A cache hit up to the figures, lines 51-60. *)
Definition hit_head (u : Usage) (n : nat) (c : Z) : list line :=
  [ Rule 50; AnalysisTitle n; Rule 50; CacheHit; CachedTokensRead c;
    NewTokensProcessed (input_tokens u);
    TotalInputTokens (input_tokens u + c) ].

(** Lines 77-80. *)
Definition hit_figures (h : HitCosts) : list line :=
  [ Text "COST BREAKDOWN:"; WithoutCache (hc_without h); WithCache (hc_with h);
    Saved (hc_savings h) (hc_percent h) ].

(** A cache miss up to the creation test, lines 51-53 and 83-84. *)
Definition miss_head (u : Usage) (n : nat) : list line :=
  [ Rule 50; AnalysisTitle n; Rule 50; CacheMiss;
    NewTokensProcessed (input_tokens u) ].

(** Lines 94-96. *)
Definition creation_figures (cost : float) : list line :=
  [ Text "CACHE CREATION COST:"; OneTimeWriteCost cost;
    Text "(Future requests will save 90%)" ].

(** Lines 98-99. *)
Definition analysis_tail (u : Usage) : list line :=
  [ OutputTokens (output_tokens u); Rule 50 ].

(** What [main] prints when the key is missing, lines 253-259. *)
Definition missing_key_report : list line :=
  [ Rule 60; Text "PROMPT CACHING DEMONSTRATION";
    Text "Reduce your AI API costs by 90%!"; Rule 60;
    Text "ERROR: ANTHROPIC_API_KEY not found in environment variables!";
    Text "Please create a .env file with your API key:";
    Text "  ANTHROPIC_API_KEY=your_api_key_here";
    Text "  ANTHROPIC_MODEL=claude-3-5-haiku-20241022" ].

(** The history kept at lines 242-243. *)
Definition window (h : list Message) : list Message :=
  if (10 <? List.length h)%nat then last_n 10 h else h.

Definition is_not_CacheHit (x : line) : bool :=
  match x with CacheHit => false | _ => true end.

Definition is_not_CacheMiss (x : line) : bool :=
  match x with CacheMiss => false | _ => true end.

Definition is_not_Saved (x : line) : bool :=
  match x with Saved _ _ => false | _ => true end.

(** How many messages each request of a trace carries. *)
Definition message_counts (t : list event) : list nat :=
  map (fun r => List.length (messages r)) (requests t).

End Layout.

Module Samples.
Import B64 Py Demo Spec.
Local Open Scope string_scope.

Definition world0 : World := {| stdin := []; calls := 0 |}.

Definition chat0 : Chat := {| conversation_history := []; request_count := 0 |}.

(** No token at all. *)
Definition usage_zero : Usage :=
  {| input_tokens := 0; cache_read_input_tokens := Some 0%Z;
     cache_creation_input_tokens := Some 0%Z; output_tokens := 0 |}.

(** The cache hit of the specification's example. *)
Definition usage_example : Usage :=
  {| input_tokens := 100; cache_read_input_tokens := Some 9000%Z;
     cache_creation_input_tokens := Some 0%Z; output_tokens := 0 |}.

(** The cache write of the specification's example. *)
Definition usage_creation : Usage :=
  {| input_tokens := 100; cache_read_input_tokens := Some 0%Z;
     cache_creation_input_tokens := Some 9000%Z; output_tokens := 0 |}.

Definition usage_rounding : Usage :=
  {| input_tokens := 3; cache_read_input_tokens := Some 1%Z;
     cache_creation_input_tokens := Some 0%Z; output_tokens := 0 |}.

(** A pricing table whose cache-read rate is the float just below 0.80,
    [0.7999999999999999]. *)
Definition pricing_close : PricingTable :=
  {| baseRatePerMillion := lit 80 100;
     cacheReadRatePerMillion := Fin (7205759403792793 # 9007199254740992);
     cacheWriteRatePerMillion := lit 100 100 |}.

Definition response_of (u : Usage) : Response :=
  {| content := ["(text)"]; usage := u |}.

Definition analysis_lines (u : Usage) : list line :=
  printed (trace_of (print_cache_analysis (response_of u) 1 tt world0)).

(** An API whose first request writes the cache and whose later requests
    read it. *)
Definition cached_api (k : nat) (r : Request) : result Response :=
  Ok {| content := ["(answer)"];
        usage := {| input_tokens := 100;
                    cache_read_input_tokens :=
                      Some (if (k =? 0)%nat then 0%Z else 9000%Z);
                    cache_creation_input_tokens :=
                      Some (if (k =? 0)%nat then 9000%Z else 0%Z);
                    output_tokens := 50 |} |}.

Definition env_with_key : Env :=
  {| getenv := fun name =>
       if String.eqb name "ANTHROPIC_API_KEY" then Some "sk-test" else None;
     sample_videos_metadata := Ok {| videos := 2; dumps := "[{}, {}]" |};
     messages_create := cached_api |}.

Definition env_without_key : Env :=
  {| getenv := fun _ => None;
     sample_videos_metadata := Ok {| videos := 2; dumps := "[{}, {}]" |};
     messages_create := cached_api |}.

(** Token counts to compare the rounding on. *)
Definition token_counts : list Z :=
  [ 0; 1; 2; 3; 5; 7; 10; 19; 33; 81; 100; 253; 1000; 4096; 9000; 9100;
    65537; 123456; 199999; 200000; 999999; 1000000; 1000001; 123456789;
    9007199254740991 ]%Z.

(** [calculate_token_cost tokens (n/d)] is the primitive float
    [Prim.prim_cost tokens n d]. *)
Definition cost_agrees (n : Z) (d : positive) (tokens : Z) : bool :=
  match calculate_token_cost tokens (lit n d) with
  | Ok x => PrimFloat.eqb (Prim.to_prim x) (Prim.prim_cost tokens n (Zpos d))
  | Raise _ => false
  end.

End Samples.

(* ================================================================== *)
(** ** Facts on binary64 rounding *)

Module B64Facts.
Import B64.
Local Open Scope Q_scope.

Lemma pow2_pos (e : Z) : 0 < pow2 e.
Proof. unfold pow2. apply Qpower_0_lt. reflexivity. Qed.

Lemma pow2_add (a b : Z) : pow2 (a + b) == pow2 a * pow2 b.
Proof. unfold pow2. apply Qpower_plus. discriminate. Qed.

Lemma pow2_inject (n : Z) : (0 <= n)%Z -> pow2 n == inject_Z (2 ^ n).
Proof. intros H. unfold pow2. rewrite Zpower_Qpower by exact H. reflexivity. Qed.

Lemma pow2_pred (e : Z) : pow2 (e - 1) == (1 # 2) * pow2 e.
Proof.
  replace (e - 1)%Z with (e + -1)%Z by lia. rewrite pow2_add.
  change (pow2 (-1)) with (1 # 2). ring.
Qed.

(** [Z.log2] brackets a positive integer between powers of two. *)
Lemma log2_bracket (n : Z) :
  (0 < n)%Z -> pow2 (Z.log2 n) <= inject_Z n /\ inject_Z n < pow2 (Z.log2 n + 1).
Proof.
  intros Hn. pose proof (Z.log2_spec n Hn) as [Hlo Hhi].
  pose proof (Z.log2_nonneg n) as Hl.
  rewrite !pow2_inject by lia. split.
  - rewrite <- Zle_Qle. exact Hlo.
  - rewrite <- Zlt_Qlt. replace (Z.log2 n + 1)%Z with (Z.succ (Z.log2 n)) by lia. exact Hhi.
Qed.

Lemma Qabs_make (n : Z) (d : positive) :
  Qabs (n # d) == inject_Z (Z.abs n) / inject_Z (Zpos d).
Proof. unfold Qabs. rewrite (Qmake_Qdiv (Z.abs n) d). reflexivity. Qed.

Lemma mag_lower (q : Q) : ~ q == 0 -> pow2 (mag q) <= Qabs q.
Proof.
  intros Hq. unfold mag.
  set (k := (Z.log2 (Z.abs (Qnum q)) - Z.log2 (Zpos (Qden q)))%Z).
  destruct (Qle_bool (pow2 k) (Qabs q)) eqn:E.
  - apply Qle_bool_iff. exact E.
  - destruct q as [n d]. cbn [Qnum Qden] in k.
    assert (Hn : (0 < Z.abs n)%Z).
    { destruct (Z.eq_dec n 0) as [->|Hn0]; [exfalso; apply Hq; reflexivity | lia]. }
    destruct (log2_bracket Hn) as [Hnl _].
    destruct (@log2_bracket (Zpos d) eq_refl) as [_ Hdh].
    rewrite Qabs_make.
    apply Qle_shift_div_l; [reflexivity|].
    assert (Hk : pow2 (k - 1) * pow2 (Z.log2 (Zpos d) + 1) == pow2 (Z.log2 (Z.abs n))).
    { rewrite <- pow2_add. unfold k.
      replace (Z.log2 (Z.abs n) - Z.log2 (Z.pos d) - 1 + (Z.log2 (Z.pos d) + 1))%Z
        with (Z.log2 (Z.abs n)) by lia. reflexivity. }
    pose proof (pow2_pos (k - 1)) as Hp.
    apply Qle_trans with (pow2 (k - 1) * pow2 (Z.log2 (Zpos d) + 1)).
    + apply Qmult_le_l; [exact Hp|]. apply Qlt_le_weak. exact Hdh.
    + rewrite Hk. exact Hnl.
Qed.

Lemma rne_err (y : Q) : Qabs (inject_Z (rne y) - y) <= 1 # 2.
Proof.
  pose proof (Qfloor_le y) as Hlo. pose proof (Qlt_floor y) as Hhi.
  rewrite inject_Z_plus in Hhi. change (inject_Z 1) with 1 in Hhi.
  apply Qabs_Qle_condition. unfold rne.
  destruct (Qcompare (y - inject_Z (Qfloor y)) (1 # 2)) eqn:E.
  - apply Qeq_alt in E.
    destruct (Z.even (Qfloor y)); [|rewrite inject_Z_plus; change (inject_Z 1) with 1]; lra.
  - apply Qlt_alt in E. lra.
  - apply Qgt_alt in E. rewrite inject_Z_plus. change (inject_Z 1) with 1. lra.
Qed.

Lemma u_pow2 : pow2 (-53) == u.
Proof. reflexivity. Qed.

Lemma eta_small : 0 < eta /\ eta <= 1 # 1000000000000000000000000000000.
Proof.
  split; [apply pow2_pos|]. apply Qle_bool_iff. vm_compute. reflexivity.
Qed.

Lemma pow2_1024_large : 1000000000000000000000000000000000 <= pow2 1024.
Proof. apply Qle_bool_iff. vm_compute. reflexivity. Qed.

(** The rounding error: half a unit in the last place, that is a relative
    error of [u] for a normal number and [eta] in the subnormal range. *)
Lemma round_fin_err (y : Q) : Qabs (round_fin y - y) <= u * Qabs y + eta.
Proof.
  pose proof (Qabs_nonneg y) as Hay. pose proof (pow2_pos (-1075)) as Heta.
  unfold round_fin. destruct (Qeq_bool y 0) eqn:E.
  - apply Qeq_bool_iff in E. rewrite E. unfold eta.
    change (Qabs (0 - 0)) with 0. change (Qabs 0) with 0. unfold u. lra.
  - assert (Hy : ~ y == 0) by (apply Qeq_bool_neq; exact E).
    set (e := fexp (mag y)). rewrite Qred_correct.
    pose proof (pow2_pos e) as He.
    assert (Hsc : inject_Z (rne (y / pow2 e)) * pow2 e - y
                  == (inject_Z (rne (y / pow2 e)) - y / pow2 e) * pow2 e).
    { field. lra. }
    rewrite Hsc, Qabs_Qmult, (Qabs_pos (pow2 e)) by lra.
    pose proof (rne_err (y / pow2 e)) as Hr.
    pose proof (mag_lower Hy) as Hm.
    apply Qle_trans with ((1 # 2) * pow2 e).
    + apply Qmult_le_compat_r; [exact Hr | lra].
    + rewrite <- pow2_pred. unfold e, fexp.
      destruct (Z.max_spec (mag y - 52) (-1074)) as [[_ ->]|[_ ->]].
      * change (pow2 (-1074 - 1)) with eta. unfold eta.
        assert (0 <= u * Qabs y) by (apply Qmult_le_0_compat; [discriminate | exact Hay]).
        lra.
      * replace (mag y - 52 - 1)%Z with (-53 + mag y)%Z by lia.
        rewrite pow2_add, u_pow2.
        assert (u * pow2 (mag y) <= u * Qabs y).
        { apply Qmult_le_l; [reflexivity | exact Hm]. }
        unfold eta. lra.
Qed.

(** The same for a number that is not negative, without absolute values. *)
Lemma round_fin_nonneg (y : Q) :
  0 <= y ->
  y - (u * y + eta) <= round_fin y /\ round_fin y <= y + (u * y + eta).
Proof.
  intros Hy. pose proof (round_fin_err y) as H.
  rewrite (Qabs_pos y Hy) in H. apply Qabs_Qle_condition in H. lra.
Qed.

(** For a bound [m] on the magnitude. *)
Lemma round_fin_within (y m : Q) :
  - m <= y <= m ->
  y - (u * m + eta) <= round_fin y /\ round_fin y <= y + (u * m + eta).
Proof.
  intros Hy. pose proof (round_fin_err y) as H.
  assert (Ha : Qabs y <= m) by (apply Qabs_Qle_condition; exact Hy).
  apply Qabs_Qle_condition in H. unfold u in *. lra.
Qed.

(** No overflow below [10^30]. *)
Lemma round64_fin (y : Q) :
  - (1000000000000000000000000000000) <= y <= 1000000000000000000000000000000 ->
  round64 y = Fin (round_fin y).
Proof.
  intros Hy. unfold round64.
  destruct (Qle_bool (pow2 1024) (Qabs (round_fin y))) eqn:E; [|reflexivity].
  exfalso. apply Qle_bool_iff in E.
  pose proof (round_fin_within Hy) as [Hlo Hhi].
  pose proof eta_small as [He0 He1]. pose proof pow2_1024_large as Hbig.
  assert (Hr : Qabs (round_fin y) <= 10000000000000000000000000000000).
  { apply Qabs_Qle_condition. unfold u in *. lra. }
  lra.
Qed.

(** A positive number well above the subnormal range rounds to a
    positive float or overflows to [+inf]. *)
Lemma round64_pos (y : Q) :
  (1 # 1000000000000000000000000000) <= y ->
  round64 y = PInf \/ exists r, round64 y = Fin r /\ y * (1 # 2) <= r.
Proof.
  intros Hy. pose proof eta_small as [He0 He1].
  assert (Hy0 : 0 <= y) by lra.
  pose proof (round_fin_nonneg Hy0) as [Hlo _].
  assert (Hr : y * (1 # 2) <= round_fin y) by (unfold u in *; lra).
  unfold round64. destruct (Qle_bool (pow2 1024) (Qabs (round_fin y))).
  - left. destruct (Qle_bool 0 (round_fin y)) eqn:E; [reflexivity|].
    exfalso. assert (Hge : 0 <= round_fin y) by lra.
    apply Qle_bool_iff in Hge. congruence.
  - right. exists (round_fin y). split; [reflexivity | exact Hr].
Qed.

End B64Facts.

(* ================================================================== *)
(** ** Facts on [calculate_token_cost] *)

Module CostFacts.
Import B64 Py Demo Spec B64Facts.
Local Open Scope Q_scope.

Lemma rne_nonneg (y : Q) : 0 <= y -> (0 <= rne y)%Z.
Proof.
  intros Hy. assert (Hf : (0 <= Qfloor y)%Z).
  { change 0%Z with (Qfloor 0). apply Qfloor_resp_le. exact Hy. }
  unfold rne. destruct (Qcompare _ _); [destruct (Z.even _)| |]; lia.
Qed.

Lemma round_fin_sign (y : Q) : 0 <= y -> 0 <= round_fin y.
Proof.
  intros Hy. unfold round_fin. destruct (Qeq_bool y 0); [discriminate|].
  rewrite Qred_correct. set (e := fexp (mag y)).
  pose proof (pow2_pos e) as He.
  apply Qmult_le_0_compat; [|lra].
  change 0 with (inject_Z 0). rewrite <- Zle_Qle. apply rne_nonneg.
  apply Qle_shift_div_l; [exact He | lra].
Qed.

Lemma base_rate_val : base_rate = Fin base_rate_q.
Proof. vm_compute. reflexivity. Qed.

Lemma cache_read_rate_val : cache_read_rate = Fin cache_read_rate_q.
Proof. vm_compute. reflexivity. Qed.

Lemma cache_write_rate_val : cache_write_rate = Fin 1.
Proof. vm_compute. reflexivity. Qed.

Lemma millions_add (i c : Z) : millions (i + c) == millions i + millions c.
Proof. unfold millions. rewrite inject_Z_plus. field. Qed.

Lemma millions_make (n : Z) : millions n == n # 1000000.
Proof. unfold millions. symmetry. apply Qmake_Qdiv. Qed.

Lemma millions_bounds (n lo hi : Z) :
  (lo <= n <= hi)%Z -> lo # 1000000 <= millions n <= hi # 1000000.
Proof.
  intros [H1 H2]. rewrite millions_make. unfold Qle. cbn [Qnum Qden]. lia.
Qed.

Lemma mul_unit_interval (x r : Q) : 0 <= x -> 0 <= r <= 1 -> 0 <= x * r <= x.
Proof. intros Hx [H0 H1]. split; nra. Qed.

(** [calculate_token_cost] on a token count of at most [10^16] and a rate
    in [[0, 1]]: no exception, and the two roundings it makes. *)
Lemma calc_spec (n : Z) (rate : Q) :
  (0 <= n <= 10000000000000000)%Z -> 0 <= rate <= 1 ->
  exists x r,
    calculate_token_cost n (Fin rate) = Ok (Fin r) /\
    0 <= x /\ 0 <= r /\
    millions n - (u * millions n + eta) <= x <= millions n + (u * millions n + eta) /\
    x * rate - (u * (x * rate) + eta) <= r <= x * rate + (u * (x * rate) + eta).
Proof.
  intros Hn Hrate.
  pose proof (millions_bounds Hn) as Hm.
  pose proof eta_small as [He0 He1].
  assert (Hm0 : 0 <= millions n) by lra.
  pose proof (round_fin_nonneg Hm0) as Hx.
  pose proof (round_fin_sign Hm0) as Hx0.
  set (x := round_fin (millions n)) in *.
  pose proof (mul_unit_interval Hx0 Hrate) as Hxr.
  pose proof (round_fin_nonneg (proj1 Hxr)) as Hr.
  pose proof (round_fin_sign (proj1 Hxr)) as Hr0.
  exists x, (round_fin (x * rate)).
  split; [|split; [exact Hx0 | split; [exact Hr0 | split; [lra | lra]]]].
  unfold calculate_token_cost, int_true_div, and_then.
  change (1000000 =? 0)%Z with false. cbv iota.
  fold (millions n). rewrite round64_fin by lra. fold x. cbn [is_inf fmul].
  rewrite round64_fin; [reflexivity|]. unfold u in *. lra.
Qed.

Lemma base_rate_unit : 0 <= base_rate_q <= 1.
Proof. split; apply Qle_bool_iff; reflexivity. Qed.

Lemma cache_read_rate_unit : 0 <= cache_read_rate_q <= 1.
Proof. split; apply Qle_bool_iff; reflexivity. Qed.

(** A finite result of [round64] is the rounded number, below [2^1024]. *)
Lemma round64_Fin_inv (y r : Q) :
  round64 y = Fin r -> r = round_fin y /\ Qabs r < pow2 1024.
Proof.
  unfold round64.
  destruct (Qle_bool (pow2 1024) (Qabs (round_fin y))) eqn:E.
  - destruct (Qle_bool 0 (round_fin y)); discriminate.
  - intros [= <-]. split; [reflexivity|].
    apply Qnot_le_lt. intros H. apply Qle_bool_iff in H. congruence.
Qed.

(** No overflow up to [0.9 * 2^1024]. *)
Lemma round64_fin_below (y : Q) :
  0 <= y -> y <= (9 # 10) * pow2 1024 -> round64 y = Fin (round_fin y).
Proof.
  intros Hy0 Hy. unfold round64.
  destruct (Qle_bool (pow2 1024) (Qabs (round_fin y))) eqn:E; [|reflexivity].
  exfalso. apply Qle_bool_iff in E.
  pose proof (round_fin_nonneg Hy0) as [_ Hhi].
  pose proof (round_fin_sign Hy0) as Hr0.
  rewrite (Qabs_pos _ Hr0) in E.
  pose proof eta_small as [He0 He1]. pose proof pow2_1024_large as Hbig.
  unfold u in *. lra.
Qed.

(** [10^314] tokens are [10^308] millions, which a float still holds. *)
Lemma millions_in_range (n : Z) :
  (0 <= n <= 10 ^ 314)%Z ->
  0 <= millions n /\ millions n <= (9 # 10) * pow2 1024.
Proof.
  intros Hn. pose proof (millions_bounds Hn) as [Hlo Hhi]. split.
  - clear Hhi. lra.
  - eapply Qle_trans; [exact Hhi|]. apply Qle_bool_iff. vm_compute. reflexivity.
Qed.

Lemma mul_le_mono_nonneg (x a b : Q) : 0 <= x -> a <= b -> x * a <= x * b.
Proof. intros Hx Hab. nra. Qed.

(** A float below [2^1024] times a rate in [[0, 9/10]] does not overflow. *)
Lemma fmul_rate_fin (x rate : Q) :
  0 <= x -> x < pow2 1024 -> 0 <= rate <= 9 # 10 ->
  fmul (Fin x) (Fin rate) = Fin (round_fin (x * rate)) /\
  0 <= x * rate /\ x * rate <= (9 # 10) * x.
Proof.
  intros Hx0 Hx [Hr0 Hr1].
  assert (H0 : 0 <= x * rate) by (apply Qmult_le_0_compat; assumption).
  assert (H1 : x * rate <= (9 # 10) * x).
  { rewrite (Qmult_comm (9 # 10) x). apply mul_le_mono_nonneg; assumption. }
  split; [|split; assumption].
  cbn [fmul]. apply round64_fin_below; [exact H0 | lra].
Qed.

Lemma base_rate_below : 0 <= base_rate_q <= 9 # 10.
Proof. split; apply Qle_bool_iff; reflexivity. Qed.

Lemma cache_read_rate_below : 0 <= cache_read_rate_q <= 9 # 10.
Proof. split; apply Qle_bool_iff; reflexivity. Qed.

(** The cost at the base rate of 1 to [10^314] tokens is computed, and
    it is positive. *)
Lemma cost_at_base_rate_computed (n : Z) :
  (1 <= n <= 10 ^ 314)%Z ->
  exists x, calculate_token_cost n base_rate = Ok (Fin x) /\ 0 < x.
Proof.
  intros Hn. rewrite base_rate_val.
  unfold calculate_token_cost, int_true_div, and_then.
  change (1000000 =? 0)%Z with false. cbv iota. fold (millions n).
  destruct (@millions_in_range n) as [Hm0 Hm1]; [lia|].
  assert (Hm : 1 # 1000000 <= millions n).
  { rewrite millions_make. unfold Qle. cbn [Qnum Qden]. lia. }
  pose proof (round64_fin_below Hm0 Hm1) as E.
  destruct (@round64_Fin_inv _ _ E) as [_ Hlt].
  rewrite E. cbn [is_inf].
  pose proof (round_fin_nonneg Hm0) as [Hlo _].
  pose proof (round_fin_sign Hm0) as Hx0.
  rewrite (Qabs_pos _ Hx0) in Hlt.
  pose proof eta_small as [He0 He1].
  set (x := round_fin (millions n)) in *.
  destruct (fmul_rate_fin Hx0 Hlt base_rate_below) as (-> & Hp0 & _).
  pose proof (round_fin_nonneg Hp0) as [Hr _].
  eexists. split; [reflexivity|].
  unfold u, base_rate_q in *. lra.
Qed.

Lemma eta_below_slack : 4000000 * eta <= pow2 (-1050).
Proof. apply Qle_bool_iff. vm_compute. reflexivity. Qed.

(** [calc_spec] for rates up to a million. *)
Lemma calc_spec_wide (n : Z) (rate : Q) :
  (0 <= n <= 10000000000000000)%Z -> 0 <= rate <= 1000000 ->
  exists x r,
    calculate_token_cost n (Fin rate) = Ok (Fin r) /\
    0 <= x /\ 0 <= r /\
    millions n - (u * millions n + eta) <= x <= millions n + (u * millions n + eta) /\
    x * rate - (u * (x * rate) + eta) <= r <= x * rate + (u * (x * rate) + eta).
Proof.
  intros Hn Hrate.
  pose proof (millions_bounds Hn) as Hm.
  pose proof eta_small as [He0 He1].
  assert (Hm0 : 0 <= millions n) by lra.
  pose proof (round_fin_nonneg Hm0) as Hx.
  pose proof (round_fin_sign Hm0) as Hx0.
  set (x := round_fin (millions n)) in *.
  assert (Hxr : 0 <= x * rate <= x * 1000000).
  { split; [apply Qmult_le_0_compat; lra | apply mul_le_mono_nonneg; lra]. }
  pose proof (round_fin_nonneg (proj1 Hxr)) as Hr.
  pose proof (round_fin_sign (proj1 Hxr)) as Hr0.
  exists x, (round_fin (x * rate)).
  split; [|split; [exact Hx0 | split; [exact Hr0 | split; [lra | lra]]]].
  unfold calculate_token_cost, int_true_div, and_then.
  change (1000000 =? 0)%Z with false. cbv iota.
  fold (millions n). rewrite round64_fin by lra. fold x. cbn [is_inf fmul].
  rewrite round64_fin; [reflexivity|]. unfold u in *. lra.
Qed.

(** The two costs for any rates [0 <= r <= b <= 10^6] and at most
    [10^15] tokens: no exception, and the cost with cache exceeds the cost
    without by rounding only. *)
Lemma costs_up_to_rounding (i c : Z) (b r : Q) :
  (0 <= i)%Z -> (0 <= c)%Z -> (i + c <= 1000000000000000)%Z ->
  0 <= r -> r <= b -> b <= 1000000 ->
  exists cw cc,
    cost_without_cache i c (Fin b) = Ok (Fin cw) /\
    cost_with_cache i c (Fin b) (Fin r) = Ok (Fin cc) /\
    0 <= cw /\ 0 <= cc /\
    cc <= cw * (1 + (1 # 1125899906842624)) + pow2 (-1050).
Proof.
  intros Hi Hc Hic Hr0 Hrb Hb.
  pose proof eta_below_slack as Hslack.
  unfold cost_without_cache, cost_with_cache.
  destruct (@calc_spec_wide (i + c) b) as (xn & cw & En & Hxn0 & Hcw0 & Hxn & Hcw);
    [lia | lra |].
  destruct (@calc_spec_wide i b) as (xi & a & Ei & Hxi0 & Ha0 & Hxi & Ha);
    [lia | lra |].
  destruct (@calc_spec_wide c r) as (xc & a' & Ec & Hxc0 & Ha'0 & Hxc & Ha');
    [lia | lra |].
  assert (Hmi : 0 # 1000000 <= millions i <= 1000000000000000 # 1000000)
    by (apply millions_bounds; lia).
  assert (Hmc : 0 # 1000000 <= millions c <= 1000000000000000 # 1000000)
    by (apply millions_bounds; lia).
  pose proof eta_small as [He0 He1].
  pose proof (millions_add i c) as Hadd.
  set (mi := millions i) in *. set (mc := millions c) in *.
  set (mn := millions (i + c)) in *.
  (* the products, as unknowns of the linear problem *)
  assert (Hb0 : 0 <= b) by lra.
  assert (P1 : xi * b <= (mi + (u * mi + eta)) * b) by (apply Qmult_le_compat_r; lra).
  assert (P2 : xc * r <= xc * b) by (apply mul_le_mono_nonneg; lra).
  assert (P3 : xc * b <= (mc + (u * mc + eta)) * b) by (apply Qmult_le_compat_r; lra).
  assert (P4 : (mn - (u * mn + eta)) * b <= xn * b) by (apply Qmult_le_compat_r; lra).
  assert (P5 : 0 <= xi * b) by (apply Qmult_le_0_compat; lra).
  assert (P6 : 0 <= xc * r) by (apply Qmult_le_0_compat; lra).
  assert (P7 : 0 <= mn * b) by (apply Qmult_le_0_compat; lra).
  assert (P8 : (mi + (u * mi + eta)) * b == mi * b + u * (mi * b) + eta * b) by ring.
  assert (P9 : (mc + (u * mc + eta)) * b == mc * b + u * (mc * b) + eta * b) by ring.
  assert (P10 : (mn - (u * mn + eta)) * b == mn * b - u * (mn * b) - eta * b) by ring.
  assert (P11 : mn * b == mi * b + mc * b) by (rewrite Hadd; ring).
  assert (P12 : 0 <= eta * b <= 1000000 * eta).
  { split; [apply Qmult_le_0_compat; lra|].
    rewrite (Qmult_comm 1000000 eta). apply mul_le_mono_nonneg; lra. }
  assert (P13 : 0 <= mi * b) by (apply Qmult_le_0_compat; lra).
  assert (P14 : 0 <= mc * b) by (apply Qmult_le_0_compat; lra).
  set (xib := xi * b) in *. set (xcr := xc * r) in *. set (xcb := xc * b) in *.
  set (xnb := xn * b) in *. set (mib := mi * b) in *. set (mcb := mc * b) in *.
  set (mnb := mn * b) in *. set (eb := eta * b) in *.
  unfold u in *.
  assert (Hab : 0 <= a + a') by lra.
  pose proof (round_fin_nonneg Hab) as Hcc. unfold u in Hcc.
  pose proof (round_fin_sign Hab) as Hcc0.
  rewrite En, Ei, Ec. cbn [and_then fadd].
  assert (Hbig : a + a' <= 1000000000000000000000000).
  { assert (Hq1 : xib <= xi * 1000000)
      by (unfold xib; apply mul_le_mono_nonneg; lra).
    assert (Hq2 : xcr <= xc * 1000000)
      by (unfold xcr; apply mul_le_mono_nonneg; lra).
    lra. }
  rewrite (@round64_fin (a + a')) by lra.
  eexists cw, _. split; [reflexivity | split; [reflexivity|]].
  split; [exact Hcw0 | split; [exact Hcc0|]].
  lra.
Qed.

End CostFacts.

(* ================================================================== *)
(** ** What [print_cache_analysis] prints *)

Module AnalysisFacts.
Import B64 Py Demo Spec Layout B64Facts CostFacts.
Local Open Scope Q_scope.

Lemma printed_map_Print (ls : list line) : printed (map Print ls) = ls.
Proof. induction ls as [|x ls IH]; [reflexivity | cbn; rewrite IH; reflexivity]. Qed.

(** The cache-hit branch. *)
Lemma print_cache_analysis_hit (resp : Response) (n : nat) (c : Z) (w : World) :
  attr_gt0 (cache_read_input_tokens (usage resp)) = Some c ->
  print_cache_analysis resp n tt w =
  match hit_costs (input_tokens (usage resp)) c with
  | Ok h =>
      (map Print (hit_head (usage resp) n c ++ hit_figures h
                  ++ analysis_tail (usage resp)), tt, w, Ok tt)
  | Raise e => (map Print (hit_head (usage resp) n c), tt, w, Raise e)
  end.
Proof.
  intros H. unfold print_cache_analysis. rewrite H.
  unfold bind, print, lift. cbn.
  destruct (hit_costs (input_tokens (usage resp)) c); reflexivity.
Qed.

(** The cache-miss branch that writes the cache. *)
Lemma print_cache_analysis_creation (resp : Response) (n : nat) (k : Z) (w : World) :
  attr_gt0 (cache_read_input_tokens (usage resp)) = None ->
  attr_gt0 (cache_creation_input_tokens (usage resp)) = Some k ->
  print_cache_analysis resp n tt w =
  match creation_cost k with
  | Ok cost =>
      (map Print (miss_head (usage resp) n ++ [CacheCreationTokens k]
                  ++ creation_figures cost ++ analysis_tail (usage resp)),
       tt, w, Ok tt)
  | Raise e =>
      (map Print (miss_head (usage resp) n ++ [CacheCreationTokens k]),
       tt, w, Raise e)
  end.
Proof.
  intros H1 H2. unfold print_cache_analysis. rewrite H1, H2.
  unfold bind, print, lift. cbn.
  destruct (creation_cost k); reflexivity.
Qed.

(** The plain cache-miss branch. *)
Lemma print_cache_analysis_miss (resp : Response) (n : nat) (w : World) :
  attr_gt0 (cache_read_input_tokens (usage resp)) = None ->
  attr_gt0 (cache_creation_input_tokens (usage resp)) = None ->
  print_cache_analysis resp n tt w =
  (map Print (miss_head (usage resp) n ++ analysis_tail (usage resp)),
   tt, w, Ok tt).
Proof.
  intros H1 H2. unfold print_cache_analysis. rewrite H1, H2. reflexivity.
Qed.

Lemma attr_gt0_Some (a : option Z) (c : Z) :
  attr_gt0 a = Some c <-> a = Some c /\ (0 < c)%Z.
Proof.
  unfold attr_gt0. destruct a as [n|].
  - destruct (Z.ltb_spec 0 n); split.
    + intros [= ->]. split; [reflexivity | assumption].
    + intros [[= ->] _]. reflexivity.
    + discriminate.
    + intros [[= ->] ?]. lia.
  - split; [discriminate | intros [? _]; discriminate].
Qed.

Lemma attr_gt0_read (u : Usage) :
  match attr_gt0 (cache_read_input_tokens u) with
  | Some c => cache_read_input_tokens u = Some c /\ (0 < c)%Z /\ cacheReadTokens u = c
  | None => (cacheReadTokens u <= 0)%Z
  end.
Proof.
  unfold attr_gt0, cacheReadTokens. destruct (cache_read_input_tokens u) as [n|].
  - destruct (Z.ltb_spec 0 n); [repeat split; assumption | assumption].
  - lia.
Qed.

Lemma attr_gt0_creation (u : Usage) :
  match attr_gt0 (cache_creation_input_tokens u) with
  | Some k => (0 < k)%Z /\ cacheCreationTokens u = k
  | None => (cacheCreationTokens u <= 0)%Z
  end.
Proof.
  unfold attr_gt0, cacheCreationTokens.
  destruct (cache_creation_input_tokens u) as [n|].
  - destruct (Z.ltb_spec 0 n); [split; [assumption | reflexivity] | assumption].
  - lia.
Qed.

(** [calculate_token_cost] raises nothing but [OverflowError]. *)
Lemma calculate_token_cost_raises (n : Z) (rate : float) (e : exn) :
  calculate_token_cost n rate = Raise e -> e = OverflowError.
Proof.
  unfold calculate_token_cost, int_true_div, and_then.
  change (1000000 =? 0)%Z with false. cbv iota.
  destruct (is_inf _); [intros [= <-]; reflexivity | discriminate].
Qed.

(** The cost at the base rate of at least one token is positive. *)
Lemma cost_at_base_rate_positive (n : Z) :
  (1 <= n)%Z ->
  calculate_token_cost n base_rate = Raise OverflowError \/
  exists x, calculate_token_cost n base_rate = Ok x /\
            fltb (Fin 0) x = true /\ is_zero x = false.
Proof.
  intros Hn. rewrite base_rate_val.
  unfold calculate_token_cost, int_true_div, and_then.
  change (1000000 =? 0)%Z with false. cbv iota. fold (millions n).
  assert (Hm : 1 # 1000000 <= millions n).
  { rewrite millions_make. unfold Qle. cbn [Qnum Qden]. lia. }
  destruct (@round64_pos (millions n)) as [-> | (r & -> & Hr)]; [lra | left; reflexivity |].
  right. cbn [is_inf fmul].
  destruct (@round64_pos (r * base_rate_q)) as [-> | (r' & -> & Hr')].
  - unfold base_rate_q. lra.
  - exists PInf. repeat split.
  - exists (Fin r'). split; [reflexivity|].
    assert (Hpos : 0 < r') by (unfold base_rate_q in Hr'; lra).
    cbn [fltb fleb is_zero]. split.
    + destruct (Qle_bool r' 0) eqn:E; [|reflexivity].
      apply Qle_bool_iff in E. lra.
    + destruct (Qeq_bool r' 0) eqn:E; [|reflexivity].
      apply Qeq_bool_iff in E. lra.
Qed.

Lemma hit_costs_raises (i c : Z) (e : exn) :
  (0 <= i)%Z -> (0 < c)%Z -> hit_costs i c = Raise e -> e = OverflowError.
Proof.
  intros Hi Hc. unfold hit_costs, cost_without_cache.
  destruct (@cost_at_base_rate_positive (i + c)) as [-> | (x & -> & _ & Hz)]; [lia | |].
  - cbn. intros [= <-]. reflexivity.
  - cbn [and_then]. unfold cost_with_cache.
    destruct (calculate_token_cost i base_rate) as [a|e1] eqn:Ea; cbn [and_then].
    2:{ intros [= <-]. exact (calculate_token_cost_raises _ _ Ea). }
    destruct (calculate_token_cost c cache_read_rate) as [b|e2] eqn:Eb; cbn [and_then].
    2:{ intros [= <-]. exact (calculate_token_cost_raises _ _ Eb). }
    unfold float_div. rewrite Hz. cbn. discriminate.
Qed.

End AnalysisFacts.

(* ================================================================== *)
(** ** The cost analysis *)

Module CostClaims.
Import B64 Py Demo Spec Layout Samples B64Facts CostFacts AnalysisFacts.
Local Open Scope Q_scope.

Lemma no_Saved_in (ls : list line) :
  forallb is_not_Saved ls = true ->
  forall s p, ~ In (Saved s p) ls.
Proof.
  intros H s p Hin. rewrite forallb_forall in H. specialize (H _ Hin). discriminate.
Qed.

(** C1, as amended.  For a usage record with non-negative token counts
    whose cost without cache (the expression of lines 66-68) is 0, the
    analysis reports a cache miss, prints no savings percentage at all and
    does not raise [ZeroDivisionError]: the division of line 75 is not
    guarded, it is never reached with a zero cost. *)
Theorem zero_cost_is_a_cache_miss (resp : Response) (n : nat) (w : World) (z : float) :
  (0 <= input_tokens (usage resp))%Z ->
  (0 <= cacheReadTokens (usage resp))%Z ->
  cost_without_cache (input_tokens (usage resp)) (cacheReadTokens (usage resp))
    base_rate = Ok z ->
  is_zero z = true ->
  let o := print_cache_analysis resp n tt w in
  In CacheMiss (printed (trace_of o)) /\
  (forall s p, ~ In (Saved s p) (printed (trace_of o))) /\
  result_of o <> Raise ZeroDivisionError.
Proof.
  intros Hi Hc Hz Hzero o. subst o.
  unfold cost_without_cache in Hz.
  pose proof (attr_gt0_read (usage resp)) as Hr.
  destruct (attr_gt0 (cache_read_input_tokens (usage resp))) as [c|] eqn:Er.
  - exfalso. destruct Hr as (_ & Hc0 & Hcr). rewrite Hcr in Hz.
    destruct (@cost_at_base_rate_positive (input_tokens (usage resp) + c))
      as [E | (x & E & _ & Hnz)]; [lia | congruence |].
    rewrite E in Hz. injection Hz as <-. congruence.
  - pose proof (attr_gt0_creation (usage resp)) as Hk.
    destruct (attr_gt0 (cache_creation_input_tokens (usage resp))) as [k|] eqn:Ek.
    + rewrite (print_cache_analysis_creation _ _ _ Er Ek).
      pose proof (@calculate_token_cost_raises k cache_write_rate) as Hraise.
      unfold creation_cost.
      destruct (calculate_token_cost k cache_write_rate) as [cost|e];
        unfold trace_of, result_of; cbn [fst snd]; rewrite printed_map_Print.
      * split; [cbn; tauto | split; [apply no_Saved_in; reflexivity | discriminate]].
      * split; [cbn; tauto | split; [apply no_Saved_in; reflexivity |]].
        rewrite (Hraise e eq_refl). discriminate.
    + rewrite (print_cache_analysis_miss _ _ _ Er Ek).
      unfold trace_of, result_of; cbn [fst snd]; rewrite printed_map_Print.
      split; [cbn; tauto | split; [apply no_Saved_in; reflexivity | discriminate]].
Qed.

(** The theorem on the record with no token. *)
Lemma zero_cost_is_a_cache_miss_witness :
  In CacheMiss (analysis_lines usage_zero) /\
  (forall s p, ~ In (Saved s p) (analysis_lines usage_zero)) /\
  result_of (print_cache_analysis (response_of usage_zero) 1 tt world0)
  <> Raise ZeroDivisionError.
Proof.
  apply (@zero_cost_is_a_cache_miss (response_of usage_zero) 1%nat world0 (Fin 0)).
  - vm_compute. discriminate.
  - vm_compute. discriminate.
  - vm_compute. reflexivity.
  - reflexivity.
Defined.

(** C1 as stated fails: the record with no token has cost 0 and the
    analysis prints no savings percentage, neither 0 nor any other. *)
Lemma zero_cost_reports_no_percentage :
  cost_without_cache (input_tokens usage_zero) (cacheReadTokens usage_zero)
    base_rate = Ok (Fin 0) /\
  result_of (print_cache_analysis (response_of usage_zero) 1 tt world0) = Ok tt /\
  forall s p, ~ In (Saved s p) (analysis_lines usage_zero).
Proof.
  split; [vm_compute; reflexivity|]. split; [vm_compute; reflexivity|].
  apply no_Saved_in. vm_compute. reflexivity.
Qed.

(** The division itself has no guard: a zero cost on the cache-hit branch
    (which takes a negative count, outside the data model) raises. *)
Remark savings_division_is_unguarded :
  cost_without_cache (-5) 5 base_rate = Ok (Fin 0) /\
  hit_costs (-5) 5 = Raise ZeroDivisionError.
Proof. split; vm_compute; reflexivity. Qed.

(** The cache-hit figures for token counts up to [10^15]: no exception,
    and how the rounded figures relate. *)
Lemma hit_costs_bounded (i c : Z) :
  (0 <= i)%Z -> (0 < c)%Z -> (i + c <= 1000000000000000)%Z ->
  exists cw cc s p,
    hit_costs i c
    = Ok {| hc_without := Fin cw; hc_with := Fin cc;
            hc_savings := Fin s; hc_percent := p |} /\
    cost_without_cache i c base_rate = Ok (Fin cw) /\
    cost_with_cache i c base_rate cache_read_rate = Ok (Fin cc) /\
    0 < cw /\ cc <= cw /\
    Qabs (s - exact_savings c) <= (1 # 1125899906842624) * millions (i + c).
Proof.
  intros Hi Hc Hic.
  unfold hit_costs, cost_without_cache, cost_with_cache.
  rewrite base_rate_val, cache_read_rate_val.
  destruct (@calc_spec (i + c) base_rate_q) as (xn & cw & En & Hxn0 & Hcw0 & Hxn & Hcw);
    [lia | exact base_rate_unit |].
  destruct (@calc_spec i base_rate_q) as (xi & a & Ei & Hxi0 & Ha0 & Hxi & Ha);
    [lia | exact base_rate_unit |].
  destruct (@calc_spec c cache_read_rate_q) as (xc & b & Ec & Hxc0 & Hb0 & Hxc & Hb);
    [lia | exact cache_read_rate_unit |].
  assert (Hmi : 0 # 1000000 <= millions i <= 1000000000000000 # 1000000)
    by (apply millions_bounds; lia).
  assert (Hmc : 1 # 1000000 <= millions c <= 1000000000000000 # 1000000)
    by (apply millions_bounds; lia).
  pose proof eta_small as [He0 He1].
  pose proof (millions_add i c) as Hadd.
  unfold exact_savings.
  set (mi := millions i) in *. set (mc := millions c) in *.
  set (mn := millions (i + c)) in *.
  unfold u, base_rate_q, cache_read_rate_q in *.
  assert (Hab : 0 <= a + b) by lra.
  pose proof (round_fin_nonneg Hab) as Hcc. unfold u in Hcc.
  pose proof (round_fin_sign Hab) as Hcc0.
  set (cc := round_fin (a + b)) in *.
  assert (Hd : - (cw + cc) <= cw - cc <= cw + cc) by lra.
  pose proof (round_fin_within Hd) as Hs. unfold u in Hs.
  assert (Hcwpos : 0 < cw) by lra.
  rewrite En, Ei, Ec. cbn [and_then fadd fsub].
  rewrite (@round64_fin (a + b)) by lra. fold cc. cbn [fsub].
  rewrite (@round64_fin (cw - cc)) by lra.
  unfold float_div. cbn [is_zero].
  destruct (Qeq_bool cw 0) eqn:Ez; [apply Qeq_bool_iff in Ez; lra|].
  cbn [and_then].
  eexists cw, cc, _, _. split; [reflexivity|].
  split; [reflexivity | split; [reflexivity | split; [exact Hcwpos|]]].
  split; [lra|]. apply Qabs_Qle_condition. lra.
Qed.

(* ---------------------------------------------------------------- *)

(** C3 as stated fails in binary64: with 3 new tokens, 1 cached token and
    a cache-read rate one float below the base rate, the cost with cache
    is [3.2000000000000003e-06] and the cost without is [3.2e-06]. *)
Lemma close_rates_break_the_inequality :
  (0 < cacheReadTokens usage_rounding)%Z /\
  fltb (cacheReadRatePerMillion pricing_close)
       (baseRatePerMillion pricing_close) = true /\
  exists cw cc,
    cost_without_cache (input_tokens usage_rounding)
      (cacheReadTokens usage_rounding)
      (baseRatePerMillion pricing_close) = Ok cw /\
    cost_with_cache (input_tokens usage_rounding)
      (cacheReadTokens usage_rounding)
      (baseRatePerMillion pricing_close)
      (cacheReadRatePerMillion pricing_close) = Ok cc /\
    fleb cc cw = false /\ fltb cw cc = true.
Proof.
  split; [reflexivity | split; [vm_compute; reflexivity|]].
  eexists _, _. split; [vm_compute; reflexivity|].
  split; [vm_compute; reflexivity|]. split; vm_compute; reflexivity.
Qed.

(** C3, as amended.  For [input_tokens >= 0], [cache_read_input_tokens > 0]
    and at most [10^15] tokens in all, and for every pricing table with
    [0 <= cacheReadRate <= baseRate <= 10^6], both costs are computed
    without exception and the cost with cache is at most the cost without
    up to rounding: [with <= without * (1 + 2^-50) + 2^-1050].  At the
    rates of the script (0.80 and 0.08) the two costs are the figures the
    analysis prints and the inequality holds as it stands. *)
Theorem cost_with_cache_le_without_up_to_rounding (i c : Z) (b r : Q) :
  (0 <= i)%Z -> (0 < c)%Z -> (i + c <= 1000000000000000)%Z ->
  0 <= r -> r <= b -> b <= 1000000 ->
  (exists cw cc,
     cost_without_cache i c (Fin b) = Ok (Fin cw) /\
     cost_with_cache i c (Fin b) (Fin r) = Ok (Fin cc) /\
     cc <= cw * (1 + (1 # 1125899906842624)) + pow2 (-1050)) /\
  (exists h cw cc,
     hit_costs i c = Ok h /\
     cost_without_cache i c base_rate = Ok cw /\
     cost_with_cache i c base_rate cache_read_rate = Ok cc /\
     hc_without h = cw /\ hc_with h = cc /\
     fleb cc cw = true).
Proof.
  intros Hi Hc Hic Hr0 Hrb Hb. split.
  - destruct (@costs_up_to_rounding i c b r) as (cw & cc & Ew & Ec & _ & _ & Hle);
      try assumption; [lia|].
    exists cw, cc. split; [exact Ew | split; [exact Ec | exact Hle]].
  - destruct (hit_costs_bounded Hi Hc Hic)
      as (cw & cc & s & p & Eh & Ew & Ec & _ & Hle & _).
    eexists _, (Fin cw), (Fin cc). split; [exact Eh|].
    split; [exact Ew | split; [exact Ec | split; [reflexivity | split; [reflexivity|]]]].
    cbn [fleb]. apply Qle_bool_iff. exact Hle.
Qed.

(** The theorem on the record and the rates of
    [close_rates_break_the_inequality], and on the figures of the script
    for these 3 new tokens and 1 cached token. *)
Lemma cost_with_cache_le_without_up_to_rounding_witness :
  (exists cw cc,
     cost_without_cache 3 1 (Fin (7205759403792794 # 9007199254740992))
     = Ok (Fin cw) /\
     cost_with_cache 3 1 (Fin (7205759403792794 # 9007199254740992))
       (Fin (7205759403792793 # 9007199254740992)) = Ok (Fin cc) /\
     cc <= cw * (1 + (1 # 1125899906842624)) + pow2 (-1050)) /\
  (exists h cw cc,
     hit_costs 3 1 = Ok h /\
     cost_without_cache 3 1 base_rate = Ok cw /\
     cost_with_cache 3 1 base_rate cache_read_rate = Ok cc /\
     hc_without h = cw /\ hc_with h = cc /\
     fleb cc cw = true).
Proof.
  apply (@cost_with_cache_le_without_up_to_rounding 3 1
           (7205759403792794 # 9007199254740992)
           (7205759403792793 # 9007199254740992)); try lia; lra.
Defined.

(* ---------------------------------------------------------------- *)

Lemma not_in_lines (x : line) (ls : list line) (f : line -> bool) :
  f x = false -> forallb f ls = true -> ~ In x ls.
Proof.
  intros Hx H Hin. rewrite forallb_forall in H. specialize (H _ Hin). congruence.
Qed.

(** C4.  The analysis classifies every response: its fourth line is
    [CacheHit] when [cacheReadTokens > 0] and [CacheMiss] otherwise,
    whatever happens afterwards; [CacheHit] is printed exactly when
    [cacheReadTokens > 0] and [CacheMiss] exactly when it is not. *)
Theorem cache_hit_iff_tokens_read (resp : Response) (n : nat) (w : World) :
  let out := printed (trace_of (print_cache_analysis resp n tt w)) in
  nth_error out 3
  = Some (if (0 <? cacheReadTokens (usage resp))%Z then CacheHit else CacheMiss) /\
  (In CacheHit out <-> (0 < cacheReadTokens (usage resp))%Z) /\
  (In CacheMiss out <-> (cacheReadTokens (usage resp) <= 0)%Z).
Proof.
  intros out. subst out.
  pose proof (attr_gt0_read (usage resp)) as Hr.
  destruct (attr_gt0 (cache_read_input_tokens (usage resp))) as [c|] eqn:Er.
  - destruct Hr as (_ & Hc & Hcr). rewrite Hcr.
    rewrite (print_cache_analysis_hit _ _ w Er).
    destruct (Z.ltb_spec 0 c) as [_|]; [|lia].
    assert (Hmiss : forall ls, forallb is_not_CacheMiss ls = true ->
                               (In CacheMiss ls <-> (c <= 0)%Z)).
    { intros ls Hls. split; [|lia]. intros Hin. exfalso.
      exact (@not_in_lines CacheMiss ls is_not_CacheMiss eq_refl Hls Hin). }
    destruct (hit_costs (input_tokens (usage resp)) c);
      unfold trace_of; cbn [fst snd]; rewrite printed_map_Print;
      (split; [reflexivity | split; [cbn; intuition lia | apply Hmiss; reflexivity]]).
  - assert (Hlt : (0 <? cacheReadTokens (usage resp))%Z = false)
      by (apply Z.ltb_ge; exact Hr).
    rewrite Hlt.
    assert (Hhit : forall ls, forallb is_not_CacheHit ls = true ->
                              (In CacheHit ls <-> (0 < cacheReadTokens (usage resp))%Z)).
    { intros ls Hls. split; [|lia]. intros Hin. exfalso.
      exact (@not_in_lines CacheHit ls is_not_CacheHit eq_refl Hls Hin). }
    destruct (attr_gt0 (cache_creation_input_tokens (usage resp))) as [k|] eqn:Ek.
    + rewrite (print_cache_analysis_creation _ _ w Er Ek).
      destruct (creation_cost k);
        unfold trace_of; cbn [fst snd]; rewrite printed_map_Print;
        (split; [reflexivity | split; [apply Hhit; reflexivity | cbn; intuition lia]]).
    + rewrite (print_cache_analysis_miss _ _ w Er Ek).
      unfold trace_of; cbn [fst snd]; rewrite printed_map_Print.
      split; [reflexivity | split; [apply Hhit; reflexivity | cbn; intuition lia]].
Qed.

(* ---------------------------------------------------------------- *)

(** C5.  [cost_without_cache] is
    [(inputTokens + cacheReadTokens) / 1,000,000 * baseRate] for every
    usage record, and on a cache hit [cost_with_cache] is
    [inputTokens/1e6 * baseRate + cacheReadTokens/1e6 * cacheReadRate];
    these are the two figures the analysis prints. *)
Theorem costs_follow_the_formulas (u : Usage) (p : PricingTable) :
  cost_without_cache (input_tokens u) (cacheReadTokens u) (baseRatePerMillion p)
  = costWithoutCache u p /\
  ((0 < cacheReadTokens u)%Z ->
   cost_with_cache (input_tokens u) (cacheReadTokens u)
     (baseRatePerMillion p) (cacheReadRatePerMillion p)
   = costWithCache u p /\
   forall h, hit_costs (input_tokens u) (cacheReadTokens u) = Ok h ->
     In (WithoutCache (hc_without h)) (analysis_lines u) /\
     In (WithCache (hc_with h)) (analysis_lines u) /\
     costWithoutCache u haiku = Ok (hc_without h) /\
     costWithCache u haiku = Ok (hc_with h)).
Proof.
  split; [reflexivity|]. intros Hc.
  assert (Hlt : (0 <? cacheReadTokens u)%Z = true) by (apply Z.ltb_lt; exact Hc).
  split.
  - unfold costWithCache. rewrite Hlt. unfold cost_with_cache, calculate_token_cost, inputTokens.
    destruct (int_true_div (input_tokens u) 1000000); [|reflexivity].
    cbn [and_then].
    destruct (int_true_div (cacheReadTokens u) 1000000); reflexivity.
  - intros h Eh.
    pose proof (attr_gt0_read u) as Hr.
    destruct (attr_gt0 (cache_read_input_tokens u)) as [c|] eqn:Er; [|lia].
    destruct Hr as (_ & _ & Hcr). rewrite Hcr in *.
    unfold analysis_lines.
    rewrite (@print_cache_analysis_hit (response_of u) 1 c world0 Er).
    cbn [usage response_of]. rewrite Eh.
    unfold trace_of; cbn [fst snd]; rewrite printed_map_Print.
    split; [cbn; tauto | split; [cbn; tauto|]].
    unfold costWithoutCache, costWithCache, inputTokens. rewrite Hcr, Hlt.
    revert Eh. unfold hit_costs, cost_without_cache, cost_with_cache, calculate_token_cost.
    change (baseRatePerMillion haiku) with base_rate.
    change (cacheReadRatePerMillion haiku) with cache_read_rate.
    destruct (int_true_div (input_tokens u + c) 1000000); [|discriminate].
    cbn [and_then].
    destruct (int_true_div (input_tokens u) 1000000); [|discriminate].
    cbn [and_then].
    destruct (int_true_div c 1000000); [|discriminate].
    cbn [and_then].
    destruct (float_div _ _); [|discriminate].
    cbn [and_then]. intros [= <-]. split; reflexivity.
Qed.

(** The theorem on the cache hit of the example. *)
Lemma costs_follow_the_formulas_witness :
  cost_without_cache 100 9000 base_rate = costWithoutCache usage_example haiku /\
  cost_with_cache 100 9000 base_rate cache_read_rate
  = costWithCache usage_example haiku.
Proof.
  pose proof (@costs_follow_the_formulas usage_example haiku) as [H1 H2].
  split; [exact H1|].
  exact (proj1 (H2 ltac:(vm_compute; reflexivity))).
Defined.

(* ---------------------------------------------------------------- *)

(** C6 as stated fails in binary64: [9100/1_000_000*0.80 == 0.00728] and
    [100/1_000_000*0.80 + 9000/1_000_000*0.08 == 0.0008] are both [False]
    (the results are [0.007280000000000001] and [0.0007999999999999999]). *)
Lemma example_costs_are_not_exact :
  exists h, hit_costs 100 9000 = Ok h /\
    feqb (hc_without h) (lit 728 100000) = false /\
    feqb (hc_with h) (lit 80 100000) = false.
Proof.
  eexists. split; [vm_compute; reflexivity|]. split; vm_compute; reflexivity.
Qed.

(** C6, as amended.  For 100 new and 9000 cached tokens the cost without
    cache is within [10^-18] of 0.00728, the cost with cache within
    [10^-18] of 0.00080, the savings within [10^-17] of 0.00648, and the
    percentage within [10^-12] of 64800/728 = 89.0109..., so within 0.05
    of 89.0. *)
Theorem example_costs_up_to_rounding :
  exists h, hit_costs 100 9000 = Ok h /\
    fin_within (hc_without h) (728 # 100000) (1 # 1000000000000000000) /\
    fin_within (hc_with h) (80 # 100000) (1 # 1000000000000000000) /\
    fin_within (hc_savings h) (648 # 100000) (1 # 100000000000000000) /\
    fin_within (hc_percent h) (64800 # 728) (1 # 1000000000000) /\
    fin_within (hc_percent h) 89 (5 # 100).
Proof.
  eexists. split; [vm_compute; reflexivity|].
  repeat split; apply Qle_bool_iff; vm_compute; reflexivity.
Qed.

(** The figures of the example are those of the primitive floats. *)
Example example_costs_on_primitive_floats :
  exists h, hit_costs 100 9000 = Ok h /\
    Prim.to_prim (hc_without h) = Prim.prim_cost 9100 80 100 /\
    Prim.to_prim (hc_with h)
    = PrimFloat.add (Prim.prim_cost 100 80 100) (Prim.prim_cost 9000 8 100) /\
    Prim.to_prim (hc_savings h)
    = PrimFloat.sub (Prim.prim_cost 9100 80 100)
        (PrimFloat.add (Prim.prim_cost 100 80 100) (Prim.prim_cost 9000 8 100)) /\
    Prim.to_prim (hc_percent h)
    = PrimFloat.mul
        (PrimFloat.div
           (PrimFloat.sub (Prim.prim_cost 9100 80 100)
              (PrimFloat.add (Prim.prim_cost 100 80 100) (Prim.prim_cost 9000 8 100)))
           (Prim.prim_cost 9100 80 100))
        (Prim.of_Z 100).
Proof.
  eexists. split; [vm_compute; reflexivity|].
  repeat split; vm_compute; reflexivity.
Qed.

(* ---------------------------------------------------------------- *)

(** C7.  On a cache miss with [cacheCreationTokens > 0] the creation cost
    is [cacheCreationTokens/1e6 * cacheWriteRate], it is the cost the
    analysis prints, and for 9000 tokens at rate 1.00 it is 0.009. *)
Theorem creation_cost_formula (resp : Response) (n : nat) (w : World) :
  (cacheReadTokens (usage resp) <= 0)%Z ->
  (0 < cacheCreationTokens (usage resp))%Z ->
  creation_cost (cacheCreationTokens (usage resp))
  = costWithCache (usage resp) haiku /\
  (forall cost,
     creation_cost (cacheCreationTokens (usage resp)) = Ok cost ->
     In (OneTimeWriteCost cost)
        (printed (trace_of (print_cache_analysis resp n tt w)))) /\
  creation_cost 9000 = Ok (lit 9 1000).
Proof.
  intros Hr Hk. split; [|split].
  - unfold costWithCache.
    destruct (Z.ltb_spec 0 (cacheReadTokens (usage resp))) as [|_]; [lia|].
    destruct (Z.ltb_spec 0 (cacheCreationTokens (usage resp))) as [_|]; [|lia].
    reflexivity.
  - intros cost Ecost.
    pose proof (attr_gt0_read (usage resp)) as Hr'.
    destruct (attr_gt0 (cache_read_input_tokens (usage resp))) as [c|] eqn:Er; [lia|].
    pose proof (attr_gt0_creation (usage resp)) as Hk'.
    destruct (attr_gt0 (cache_creation_input_tokens (usage resp))) as [k|] eqn:Ek; [|lia].
    destruct Hk' as [_ Hkk]. rewrite Hkk in *.
    rewrite (print_cache_analysis_creation _ _ w Er Ek), Ecost.
    unfold trace_of; cbn [fst snd]; rewrite printed_map_Print. cbn. tauto.
  - vm_compute. reflexivity.
Qed.

(** The theorem on the cache write of the example. *)
Lemma creation_cost_formula_witness :
  creation_cost 9000 = costWithCache usage_creation haiku /\
  In (OneTimeWriteCost (lit 9 1000)) (analysis_lines usage_creation).
Proof.
  pose proof (@creation_cost_formula (response_of usage_creation) 1%nat world0
                ltac:(vm_compute; discriminate) ltac:(vm_compute; reflexivity))
    as (H1 & H2 & H3).
  split; [exact H1|]. apply H2. exact H3.
Defined.

(* ---------------------------------------------------------------- *)

(** C9.  On a cache hit with [input_tokens >= 0] the cost without cache
    is computed and strictly positive for up to [10^314] tokens; beyond,
    it is still strictly positive unless the division by a million raises
    [OverflowError] (a quotient out of the range of a float).  So neither
    the figures nor the analysis ever raise [ZeroDivisionError], and up to
    [10^15] tokens the figures are computed and the analysis returns. *)
Theorem savings_division_never_by_zero
  (resp : Response) (n : nat) (w : World) (c : Z) :
  (0 <= input_tokens (usage resp))%Z ->
  cache_read_input_tokens (usage resp) = Some c ->
  (0 < c)%Z ->
  ((input_tokens (usage resp) + c <= 10 ^ 314)%Z ->
   exists x, cost_without_cache (input_tokens (usage resp)) c base_rate
             = Ok (Fin x) /\ 0 < x) /\
  (cost_without_cache (input_tokens (usage resp)) c base_rate = Raise OverflowError \/
   exists x, cost_without_cache (input_tokens (usage resp)) c base_rate = Ok x /\
             fltb (Fin 0) x = true) /\
  hit_costs (input_tokens (usage resp)) c <> Raise ZeroDivisionError /\
  result_of (print_cache_analysis resp n tt w) <> Raise ZeroDivisionError /\
  ((input_tokens (usage resp) + c <= 1000000000000000)%Z ->
   (exists h, hit_costs (input_tokens (usage resp)) c = Ok h) /\
   result_of (print_cache_analysis resp n tt w) = Ok tt).
Proof.
  intros Hi Hread Hc.
  assert (Er : attr_gt0 (cache_read_input_tokens (usage resp)) = Some c)
    by (apply attr_gt0_Some; split; assumption).
  assert (Hh : hit_costs (input_tokens (usage resp)) c <> Raise ZeroDivisionError).
  { intros E. pose proof (hit_costs_raises Hi Hc E). discriminate. }
  split; [|split; [|split; [exact Hh | split]]].
  - intros Hb. unfold cost_without_cache.
    apply cost_at_base_rate_computed. lia.
  - unfold cost_without_cache.
    destruct (@cost_at_base_rate_positive (input_tokens (usage resp) + c))
      as [E | (x & E & Hx & _)]; [lia | left; exact E | right; exists x; split; assumption].
  - rewrite (print_cache_analysis_hit _ _ w Er).
    destruct (hit_costs (input_tokens (usage resp)) c) as [h|e] eqn:E;
      unfold result_of; cbn [snd]; [discriminate|].
    intros [= ->]. apply Hh. reflexivity.
  - intros Hb.
    destruct (hit_costs_bounded Hi Hc Hb) as (cw & cc & s & p & Eh & _).
    split; [eexists; exact Eh|].
    rewrite (print_cache_analysis_hit _ _ w Er), Eh. reflexivity.
Qed.

(** The theorem on the cache hit of the example: a positive cost is
    computed, the figures exist and the analysis returns. *)
Lemma savings_division_never_by_zero_witness :
  (exists x, cost_without_cache 100 9000 base_rate = Ok (Fin x) /\ 0 < x) /\
  hit_costs 100 9000 <> Raise ZeroDivisionError /\
  (exists h, hit_costs 100 9000 = Ok h) /\
  result_of (print_cache_analysis (response_of usage_example) 1 tt world0) = Ok tt.
Proof.
  destruct (@savings_division_never_by_zero (response_of usage_example) 1%nat
              world0 9000 ltac:(vm_compute; discriminate) eq_refl eq_refl)
    as (H1 & _ & H3 & _ & H5).
  split; [apply H1; vm_compute; discriminate|].
  split; [exact H3|]. apply H5. vm_compute. discriminate.
Defined.

(* ---------------------------------------------------------------- *)

(** C10 as stated fails in binary64: for 100 new and 9000 cached tokens
    the amount added to the total is [0.00648] and the printed savings
    are [0.006480000000000001]. *)
Lemma tracked_savings_differs_from_printed :
  exists h t,
    hit_costs 100 9000 = Ok h /\ tracked_savings 9000 = Ok t /\
    feqb t (hc_savings h) = false /\ fltb t (hc_savings h) = true.
Proof.
  eexists _, _. split; [vm_compute; reflexivity|].
  split; [vm_compute; reflexivity|]. split; vm_compute; reflexivity.
Qed.

(** The amount added to [total_saved], for up to [10^15] tokens. *)
Lemma tracked_savings_bounded (c : Z) :
  (0 < c <= 1000000000000000)%Z ->
  exists t,
    tracked_savings c = Ok (Fin t) /\
    Qabs (t - exact_savings c) <= (1 # 1125899906842624) * millions c.
Proof.
  intros Hc. unfold tracked_savings.
  change (lit 80 100) with base_rate. change (lit 8 100) with cache_read_rate.
  rewrite base_rate_val, cache_read_rate_val.
  destruct (@calc_spec c base_rate_q) as (x1 & a & Ea & Hx10 & Ha0 & Hx1 & Ha);
    [lia | exact base_rate_unit |].
  destruct (@calc_spec c cache_read_rate_q) as (x2 & b & Eb & Hx20 & Hb0 & Hx2 & Hb);
    [lia | exact cache_read_rate_unit |].
  assert (Hmc : 1 # 1000000 <= millions c <= 1000000000000000 # 1000000)
    by (apply millions_bounds; lia).
  pose proof eta_small as [He0 He1].
  unfold exact_savings. set (mc := millions c) in *.
  unfold u, base_rate_q, cache_read_rate_q in *.
  assert (Hd : - (a + b) <= a - b <= a + b) by lra.
  pose proof (round_fin_within Hd) as Ht. unfold u in Ht.
  rewrite Ea, Eb. cbn [and_then fsub].
  rewrite (@round64_fin (a - b)) by lra.
  eexists. split; [reflexivity|]. apply Qabs_Qle_condition. lra.
Qed.

(** C10, as amended.  On a cache hit with [input_tokens >= 0] and at
    most [10^15] tokens in all, the amount added to [total_saved] and the
    savings printed by the analysis are both within
    [2^-50 * (input_tokens + cache_read)/10^6] of the exact
    [cache_read * (0.80 - 0.08) / 10^6]. *)
Theorem tracked_savings_agree_up_to_rounding (i c : Z) :
  (0 <= i)%Z -> (0 < c)%Z -> (i + c <= 1000000000000000)%Z ->
  exists h t,
    hit_costs i c = Ok h /\ tracked_savings c = Ok t /\
    fin_within (hc_savings h) (exact_savings c)
      ((1 # 1125899906842624) * millions (i + c)) /\
    fin_within t (exact_savings c)
      ((1 # 1125899906842624) * millions (i + c)).
Proof.
  intros Hi Hc Hic.
  destruct (hit_costs_bounded Hi Hc Hic) as (cw & cc & s & p & Eh & _ & _ & _ & _ & Hs).
  destruct (@tracked_savings_bounded c) as (t & Et & Ht); [lia|].
  eexists _, (Fin t). split; [exact Eh | split; [exact Et | split]].
  - exact Hs.
  - cbn [fin_within]. eapply Qle_trans; [exact Ht|].
    pose proof (millions_add i c) as Hadd.
    assert (Hmi : 0 # 1000000 <= millions i <= 1000000000000000 # 1000000)
      by (apply millions_bounds; lia).
    lra.
Qed.

(** The theorem on 100 new and 9000 cached tokens. *)
Lemma tracked_savings_agree_up_to_rounding_witness :
  exists h t,
    hit_costs 100 9000 = Ok h /\ tracked_savings 9000 = Ok t /\
    fin_within (hc_savings h) (exact_savings 9000)
      ((1 # 1125899906842624) * millions (100 + 9000)) /\
    fin_within t (exact_savings 9000)
      ((1 # 1125899906842624) * millions (100 + 9000)).
Proof.
  apply (@tracked_savings_agree_up_to_rounding 100 9000); lia.
Defined.

End CostClaims.

(* ================================================================== *)
(** ** The interactive loop and the start-up check *)

Module LoopFacts.
Import B64 Py Demo Spec Layout AnalysisFacts.
Local Open Scope string_scope.

Lemma last_n_length {A} (n : nat) (l : list A) :
  (List.length (last_n n l) <= n)%nat.
Proof. unfold last_n. rewrite length_skipn. lia. Qed.

Lemma window_length (h : list Message) : (List.length (window h) <= 10)%nat.
Proof.
  unfold window. destruct (Nat.ltb_spec 10 (List.length h)).
  - apply last_n_length.
  - assumption.
Qed.

Lemma print_cache_analysis_world (resp : Response) (n : nat) (w : World) :
  world_of (print_cache_analysis resp n tt w) = w.
Proof.
  destruct (attr_gt0 (cache_read_input_tokens (usage resp))) as [c|] eqn:Er.
  - rewrite (print_cache_analysis_hit _ _ w Er).
    destruct (hit_costs _ _); reflexivity.
  - destruct (attr_gt0 (cache_creation_input_tokens (usage resp))) as [k|] eqn:Ek.
    + rewrite (print_cache_analysis_creation _ _ w Er Ek).
      destruct (creation_cost k); reflexivity.
    + rewrite (print_cache_analysis_miss _ _ w Er Ek). reflexivity.
Qed.

Section Loop.

Variable env : Env.
Variable metadata_json : string.

(** What one pass does to the history and to [stdin]: the history is
    left as it is or becomes a window of at most 10 entries, and a pass
    that asks for another one has read a line. *)
Lemma interactive_turn_spec (l : Chat) (w : World) :
  let o := interactive_turn env metadata_json l w in
  (conversation_history (locals_of o) = conversation_history l \/
   exists h, conversation_history (locals_of o) = window h) /\
  (result_of o = Ok true ->
   S (List.length (stdin (world_of o))) = List.length (stdin w)).
Proof.
  unfold interactive_turn, bind, input.
  destruct (stdin w) as [|raw rest] eqn:Ein.
  { cbn. split; [left; reflexivity | discriminate]. }
  destruct (mem (lower (strip raw)) ["exit"; "quit"; "bye"]).
  { cbn. split; [left; reflexivity | discriminate]. }
  destruct (is_empty (strip raw)).
  { cbn. split; [left; reflexivity | intros _; reflexivity]. }
  unfold get, put, try_except, bind, create, lift, print, ret, call.
  cbn -[print_cache_analysis item0 last_n Nat.ltb].
  destruct (messages_create env (calls w) _) as [resp|e].
  2:{ cbn. split; [left; reflexivity | intros _; reflexivity]. }
  destruct (item0 (content resp)) as [ai|e].
  2:{ cbn. split; [left; reflexivity | intros _; reflexivity]. }
  cbn -[print_cache_analysis last_n Nat.ltb].
  pose proof (print_cache_analysis_world resp (S (request_count l))
                {| stdin := rest; calls := S (calls w) |}) as Hw.
  destruct (print_cache_analysis resp (S (request_count l)) tt _)
    as [[[t u0] w1] [[]|e]]; unfold world_of in Hw; cbn in Hw; subst w1;
    cbn -[last_n Nat.ltb];
    (split; [right; eexists; reflexivity | intros _; reflexivity]).
Qed.

(** A pass that gets an answer appends the user's line and the answer,
    and keeps the last 10 entries. *)
Lemma interactive_turn_appends
  (l : Chat) (w : World) (raw ai : string) (rest more : list string)
  (resp : Response) :
  stdin w = raw :: rest ->
  mem (lower (strip raw)) ["exit"; "quit"; "bye"] = false ->
  is_empty (strip raw) = false ->
  (forall r, messages_create env (calls w) r = Ok resp) ->
  content resp = ai :: more ->
  let o := interactive_turn env metadata_json l w in
  conversation_history (locals_of o)
  = window (conversation_history l
            ++ [ {| role := user; message_content := strip raw |};
                 {| role := assistant; message_content := ai |} ])%list /\
  request_count (locals_of o) = S (request_count l) /\
  result_of o = Ok true.
Proof.
  intros Hin Hexit Hempty Hapi Hcontent.
  unfold interactive_turn, bind, input. rewrite Hin, Hexit, Hempty.
  unfold get, put, try_except, bind, create, lift, print, ret, call.
  cbn -[print_cache_analysis item0 last_n Nat.ltb].
  rewrite Hapi, Hcontent. cbn -[print_cache_analysis last_n Nat.ltb].
  destruct (print_cache_analysis resp (S (request_count l)) tt _)
    as [[[t u0] w1] [[]|e]]; cbn -[last_n Nat.ltb]; repeat split.
Qed.

Lemma interactive_turn_history (l : Chat) (w : World) :
  (List.length (conversation_history l) <= 10)%nat ->
  (List.length
     (conversation_history (locals_of (interactive_turn env metadata_json l w)))
   <= 10)%nat.
Proof.
  intros Hl. destruct (interactive_turn_spec l w) as [[-> | [h ->]] _].
  - exact Hl.
  - apply window_length.
Qed.

Lemma interactive_loop_history (fuel : nat) (l : Chat) (w : World) :
  (List.length (conversation_history l) <= 10)%nat ->
  (List.length
     (conversation_history
        (locals_of (interactive_loop env metadata_json fuel l w))) <= 10)%nat.
Proof.
  revert l w. induction fuel as [|fuel IH]; intros l w Hl; [exact Hl|].
  cbn [interactive_loop]. unfold bind.
  pose proof (@interactive_turn_history l w Hl) as Ht.
  destruct (interactive_turn env metadata_json l w) as [[[t l1] w1] [[|]|e]];
    unfold locals_of in Ht; cbn [fst snd] in Ht.
  - specialize (IH l1 w1 Ht).
    destruct (interactive_loop env metadata_json fuel l1 w1) as [[[t2 l2] w2] r2].
    exact IH.
  - exact Ht.
  - exact Ht.
Qed.

(** More passes than there are lines left change nothing: the loop has
    ended by [break] or by [EOFError] before. *)
Lemma interactive_loop_fuel (fuel : nat) (l : Chat) (w : World) :
  (List.length (stdin w) < fuel)%nat ->
  interactive_loop env metadata_json (S fuel) l w
  = interactive_loop env metadata_json fuel l w.
Proof.
  revert l w. induction fuel as [|fuel IH]; intros l w Hf; [lia|].
  cbn [interactive_loop]. unfold bind.
  pose proof (interactive_turn_spec l w) as [_ Hin].
  destruct (interactive_turn env metadata_json l w) as [[[t l1] w1] [[|]|e]];
    unfold result_of, world_of in Hin; cbn [fst snd] in Hin; try reflexivity.
  specialize (Hin eq_refl).
  assert (Hf1 : (List.length (stdin w1) < fuel)%nat) by lia.
  specialize (IH l1 w1 Hf1). cbn [interactive_loop] in IH. unfold bind in IH.
  rewrite IH. reflexivity.
Qed.

End Loop.

End LoopFacts.

(* ================================================================== *)
(** ** Runs of the script *)

Module RunClaims.
Import B64 Py Demo Spec Layout Samples AnalysisFacts LoopFacts.
Local Open Scope string_scope.

(** C2.  Whatever is typed and whatever the API answers, after any number
    of passes of the loop, and when [interactive_mode] ends, the
    conversation history has at most 10 entries. *)
Theorem conversation_history_at_most_10
  (env : Env) (metadata_json : string) (turns : nat) (w : World) :
  (List.length
     (conversation_history
        (locals_of (interactive_loop env metadata_json turns chat0 w))) <= 10)%nat /\
  (List.length
     (conversation_history (locals_of (interactive_mode env chat0 w))) <= 10)%nat.
Proof.
  split.
  - apply interactive_loop_history. cbn. lia.
  - unfold interactive_mode, bind, print, load_sample_data, put.
    cbn -[interactive_loop].
    destruct (sample_videos_metadata env) as [md|e]; cbn -[interactive_loop].
    + change {| conversation_history := []; request_count := 0 |} with chat0.
      pose proof (@interactive_loop_history env (dumps md)
                    (S (List.length (stdin w))) chat0 w) as H.
      destruct (interactive_loop env (dumps md) (S (List.length (stdin w))) chat0 w)
        as [[[t l] w1] r].
      apply H. cbn. lia.
    + lia.
Qed.

(** C8.  Without [ANTHROPIC_API_KEY] in the environment, [main] prints the
    header and the four lines of the report and returns: it reads no
    input, opens no file, sends no request and raises nothing. *)
Theorem missing_key_aborts_before_any_request (env : Env) (w : World) :
  getenv env "ANTHROPIC_API_KEY" = None ->
  main env tt w = (map Print missing_key_report, tt, w, Ok tt) /\
  requests (trace_of (main env tt w)) = [].
Proof.
  intros H.
  assert (E : main env tt w = (map Print missing_key_report, tt, w, Ok tt)).
  { unfold main, key_missing, ANTHROPIC_API_KEY. rewrite H. reflexivity. }
  split; [exact E|]. rewrite E. reflexivity.
Qed.

(** The theorem on an environment with no variable set. *)
Lemma missing_key_aborts_before_any_request_witness :
  main env_without_key tt {| stdin := ["1"]; calls := 0 |}
  = (map Print missing_key_report, tt, {| stdin := ["1"]; calls := 0 |}, Ok tt) /\
  requests (trace_of (main env_without_key tt {| stdin := ["1"]; calls := 0 |})) = [].
Proof.
  apply (@missing_key_aborts_before_any_request env_without_key). reflexivity.
Defined.

(** An empty key is treated like an absent one. *)
Lemma empty_key_aborts_too (env : Env) (w : World) :
  getenv env "ANTHROPIC_API_KEY" = Some "" ->
  main env tt w = (map Print missing_key_report, tt, w, Ok tt).
Proof.
  intros H. unfold main, key_missing, ANTHROPIC_API_KEY. rewrite H. reflexivity.
Qed.

(** With a key, choice 1 sends the four requests. *)
Example demonstration_sends_four_requests :
  let o := main env_with_key tt {| stdin := ["1"]; calls := 0 |} in
  List.length (requests (trace_of o)) = 4%nat /\
  calls (world_of o) = 4%nat /\ result_of o = Ok tt.
Proof. vm_compute. repeat split. Qed.

(** Seven turns: each request carries the window and the new message, and
    the window stops growing at 10 entries. *)
Example interactive_window_slides :
  let o := main env_with_key tt
             {| stdin := [" 2 "; "a"; ""; "b"; "c"; "d"; "e"; "f"; "g"; " EXIT "; "z"];
                calls := 0 |} in
  message_counts (trace_of o) = [1; 3; 5; 7; 9; 11; 11]%nat /\
  stdin (world_of o) = ["z"] /\ result_of o = Ok tt.
Proof. vm_compute. repeat split. Qed.

(** A successful request that hits the cache adds [tracked_savings] to
    [total_saved]. *)
Lemma demonstrate_prompt_adds_tracked_savings
  (env : Env) (metadata_json prompt text : string) (i : nat) (total_saved t : float)
  (w : World) (resp : Response) (rest : list string) (c : Z) :
  (forall r, messages_create env (calls w) r = Ok resp) ->
  content resp = text :: rest ->
  attr_gt0 (cache_read_input_tokens (usage resp)) = Some c ->
  (forall w', result_of (print_cache_analysis resp i tt w') = Ok tt) ->
  tracked_savings c = Ok t ->
  locals_of (demonstrate_prompt env metadata_json (i, prompt) total_saved w)
  = fadd total_saved t.
Proof.
  intros Hapi Hcontent Hhit Hpca Ht.
  unfold demonstrate_prompt, try_except, bind, create, print, lift, call, get, put, ret.
  rewrite Hapi, Hcontent. cbn -[print_cache_analysis tracked_savings Nat.ltb String.length].
  specialize (Hpca {| stdin := stdin w; calls := S (calls w) |}).
  destruct (print_cache_analysis resp i tt _) as [[[t0 u0] w1] r].
  unfold result_of in Hpca. cbn in Hpca. subst r.
  rewrite Hhit, Ht. cbn -[Nat.ltb].
  destruct (i <? 4)%nat; reflexivity.
Qed.

End RunClaims.

(* ================================================================== *)
(** ** The rounding against primitive floats *)

Module PrimFacts.
Import B64 Py Demo Spec Samples.

(** On the sample token counts, [calculate_token_cost] at the three
    rates of the script is the product the primitive floats compute. *)
Example costs_agree_with_primitive_floats :
  forallb (cost_agrees 80 100) token_counts = true /\
  forallb (cost_agrees 8 100) token_counts = true /\
  forallb (cost_agrees 100 100) token_counts = true.
Proof. repeat split; vm_compute; reflexivity. Qed.

(** Quotients, conversions at a tie ([2^53 + 1] and [2^53 + 3]),
    subnormal results at and off a tie, and sums at the overflow
    threshold: the model and the primitive floats round alike. *)
Example rounding_agrees_with_primitive_floats :
  Prim.to_prim (lit 1 3) = PrimFloat.div (Prim.of_Z 1) (Prim.of_Z 3) /\
  Prim.to_prim (lit 2 3) = PrimFloat.div (Prim.of_Z 2) (Prim.of_Z 3) /\
  Prim.to_prim (of_int 9007199254740993) = Prim.of_Z 9007199254740993 /\
  Prim.to_prim (of_int 9007199254740995) = Prim.of_Z 9007199254740995 /\
  Prim.to_prim (fmul (Fin (pow2 (-1074))) (Fin (3 # 2)))
  = PrimFloat.mul Prim.tiny (PrimFloat.div (Prim.of_Z 3) (Prim.of_Z 2)) /\
  Prim.to_prim (fmul (Fin (pow2 (-1074))) (Fin (5 # 2)))
  = PrimFloat.mul Prim.tiny (PrimFloat.div (Prim.of_Z 5) (Prim.of_Z 2)) /\
  Prim.to_prim (fdiv_nz (Fin (pow2 (-1074))) (Fin 2))
  = PrimFloat.div Prim.tiny (Prim.of_Z 2) /\
  Prim.to_prim (fadd (Fin (pow2 1023)) (Fin (pow2 1023)))
  = PrimFloat.add Prim.big Prim.big /\
  Prim.to_prim (fsub (Fin (pow2 1023)) (Fin (pow2 970)))
  = PrimFloat.sub Prim.big (FloatOps.Z.ldexp Prim.one 970) /\
  Prim.to_prim (fsub (Fin (pow2 1023)) (Fin (pow2 969)))
  = PrimFloat.sub Prim.big (FloatOps.Z.ldexp Prim.one 969).
Proof. repeat split; vm_compute; reflexivity. Qed.

End PrimFacts.
